(** * Stone: the Python client generator ([stone/target/python_client.py])

    A shallow embedding of [PythonClientGenerator]: the route-to-method
    synthesis, the docstring synthesizer, the default-value renderer and the
    deprecation annotator, together with the properties of the generated
    output stated in the specification.

    The generator writes through the emission primitives of [CodeGenerator]
    ([emit], [emit_raw], [emit_wrapped_text], [generate_multiline_list] and
    the [indent] scope).  Those primitives live outside this file, so a run
    of the generator is modelled by the sequence of calls it makes on them,
    each recorded with its arguments and the indentation scope it was made
    in.  The formatting helpers of [python_helpers] and [python_types] and
    [process_doc] are parameters of the development. *)

From Stdlib Require Import Ascii String.
From stdpp Require Import base option list strings gmap.

(** ** Strings as Python uses them *)

(** [if s:] on a Python string. *)
Definition truthy (s : string) : bool :=
  match s with EmptyString => false | String _ _ => true end.

(** [if d:] on an attribute that is a string or [None]. *)
Definition truthy_opt (d : option string) : bool :=
  match d with Some s => truthy s | None => false end.

(** [s.rsplit(' ', 1)] when it yields two parts: the text before the last
    space and the text after it.  [None] stands for the one-element list
    Python returns when [s] holds no space. *)
Fixpoint rsplit_space (s : string) : option (string * string) :=
  match s with
  | EmptyString => None
  | String c rest =>
      match rsplit_space rest with
      | Some (a, l) => Some (String c a, l)
      | None => if Ascii.eqb c " " then Some (EmptyString, rest) else None
      end
  end.

Definition upper_ascii (c : ascii) : ascii :=
  let n := nat_of_ascii c in
  if (97 <=? n)%nat && (n <=? 122)%nat then ascii_of_nat (n - 32) else c.

Definition lower_ascii (c : ascii) : ascii :=
  let n := nat_of_ascii c in
  if (65 <=? n)%nat && (n <=? 90)%nat then ascii_of_nat (n + 32) else c.

Fixpoint lower_string (s : string) : string :=
  match s with
  | EmptyString => EmptyString
  | String c r => String (lower_ascii c) (lower_string r)
  end.

(** [s.capitalize()] on ASCII text. *)
Definition capitalize (s : string) : string :=
  match s with
  | EmptyString => EmptyString
  | String c r => String (upper_ascii c) (lower_string r)
  end.

(** ** The schema model *)

(** Modelled from the spec: the data types, fields and default values of
    [stone.data_type], whose classes are not part of this file (section 3
    of the specification: Void, Struct with [fields] and [all_fields],
    Union with [fields]; a field with its name, data type, doc text and
    default; a TaggedValue pairing a union with a tag name).  A composite
    type refers back to its namespace; only the name of that namespace is
    ever read, so the back reference is kept as the name.  [Primitive],
    [Nullable] and [List] are the shapes that are neither Void nor
    user-defined. *)
Inductive DataType : Type :=
  | Void
  | Primitive (name : string)
  | Nullable (data_type : DataType)
  | List (data_type : DataType)
  | Struct (name : string) (namespace : string) (doc : option string)
           (fields : list Field) (all_fields : list Field)
  | Union (name : string) (namespace : string) (doc : option string)
          (fields : list Field)
with Field : Type :=
  | mkField (name : string) (data_type : DataType) (doc : option string)
            (default : option Value)
with Value : Type :=
  | TagRef (union_data_type : DataType) (tag_name : string)
  | Literal (repr : string).

Definition field_name (f : Field) : string :=
  match f with mkField n _ _ _ => n end.
Definition field_data_type (f : Field) : DataType :=
  match f with mkField _ t _ _ => t end.
Definition field_doc (f : Field) : option string :=
  match f with mkField _ _ d _ => d end.
Definition field_default (f : Field) : option Value :=
  match f with mkField _ _ _ v => v end.
(** [field.has_default]: a default value was declared. *)
Definition has_default (f : Field) : bool :=
  match field_default f with Some _ => true | None => false end.

(** Modelled from the spec: the type-classification queries imported from
    [stone.data_type] (is-void, is-struct, is-union, is-user-defined,
    is-nullable, is-tag-reference), which test the class of the value. *)
Definition is_void_type (t : DataType) : bool :=
  match t with Void => true | _ => false end.
Definition is_struct_type (t : DataType) : bool :=
  match t with Struct _ _ _ _ _ => true | _ => false end.
Definition is_union_type (t : DataType) : bool :=
  match t with Union _ _ _ _ => true | _ => false end.
Definition is_user_defined_type (t : DataType) : bool :=
  match t with Struct _ _ _ _ _ | Union _ _ _ _ => true | _ => false end.
Definition is_nullable_type (t : DataType) : bool :=
  match t with Nullable _ => true | _ => false end.
Definition is_tag_ref (v : Value) : bool :=
  match v with TagRef _ _ => true | Literal _ => false end.

(** Modelled from the spec: the values of the attribute map of a route,
    of which the generator compares the one under [style] with a string. *)
Inductive AttrValue : Type :=
  | AStr (s : string)
  | ABool (b : bool)
  | ANone.

Global Instance AttrValue_eq_dec : EqDecision AttrValue.
Proof. solve_decision. Defined.

(** Modelled from the spec: the deprecation marker of a route, with the
    name of the route that replaces it when there is one
    ([deprecated.by.name]); routes, namespaces and the api of [stone.api]
    follow, with the attributes the generator reads. *)
Record DeprecationInfo : Type := mkDeprecationInfo {
  by_route : option string
}.

Record Route : Type := mkRoute {
  route_name : string;
  arg_data_type : DataType;
  result_data_type : DataType;
  error_data_type : DataType;
  attrs : gmap string AttrValue;
  route_doc : option string;
  deprecated : option DeprecationInfo
}.

Record Namespace : Type := mkNamespace {
  ns_name : string;
  data_types : list DataType;
  routes : list Route
}.

(** [api.namespaces] is an ordered dictionary from names to namespaces. *)
Record Api : Type := mkApi {
  namespaces : list (string * Namespace)
}.

Definition namespaces_values (api : Api) : list Namespace :=
  (namespaces api).*2.

(** The command line arguments the generator reads. *)
Record Args : Type := mkArgs {
  module_name : string;
  class_name : string
}.

(** ** Failures *)

Inductive Error : Type :=
  | AssertionError (msg : string) (offending : option DataType)
  | RuntimeError (msg : string) (offending : string)
  | AttributeError (attribute : string)
  | ValueError (msg : string).

Inductive result (A : Type) : Type :=
  | Ok (a : A)
  | Raise (e : Error).
Arguments Ok {A} a.
Arguments Raise {A} e.

(** Attribute reads on a data type; a class without the attribute raises. *)
Definition get_fields (t : DataType) : result (list Field) :=
  match t with
  | Struct _ _ _ fields _ | Union _ _ _ fields => Ok fields
  | _ => Raise (AttributeError "fields")
  end.
Definition get_all_fields (t : DataType) : result (list Field) :=
  match t with
  | Struct _ _ _ _ all_fields => Ok all_fields
  | _ => Raise (AttributeError "all_fields")
  end.
Definition get_namespace (t : DataType) : result string :=
  match t with
  | Struct _ namespace _ _ _ | Union _ namespace _ _ => Ok namespace
  | _ => Raise (AttributeError "namespace")
  end.
Definition get_name (t : DataType) : result string :=
  match t with
  | Struct name _ _ _ _ | Union name _ _ _ | Primitive name => Ok name
  | _ => Raise (AttributeError "name")
  end.
Definition get_doc (t : DataType) : result (option string) :=
  match t with
  | Struct _ _ doc _ _ | Union _ _ doc _ => Ok doc
  | _ => Raise (AttributeError "doc")
  end.

(** The line break and the double quote, which string literals below do
    not hold. *)
Definition nl : string := String (ascii_of_nat 10) EmptyString.
Definition dquote : ascii := ascii_of_nat 34.
Definition triple_quote : string :=
  String dquote (String dquote (String dquote EmptyString)).

(** ** The emission utility *)

(** Modelled from the spec: the emission utility of [stone.generator]
    (raw emission, line emission, indentation scope, wrapped paragraph,
    delimited multi-line list), seen through the calls made on it.  One
    call is recorded with its arguments; [indent] is the number of
    [indent] scopes open at the call. *)
Inductive Emission : Type :=
  | EmitRaw (s : string)
  | Emit (indent : nat) (s : string)
  | EmitWrapped (indent : nat) (s : string) (subsequent_prefix : string)
  | MultilineList (indent : nat) (items : list string) (before after : string)
                  (delim : string * string) (compact : bool).

Global Instance Emission_eq_dec : EqDecision Emission.
Proof. solve_decision. Defined.

(** A generator action: run inside [i] open indentation scopes it makes the
    calls in the list, and then returns or raises. *)
Definition Gen (A : Type) : Type := nat → list Emission * result A.

Global Instance gen_ret : MRet Gen := λ A a _, ([], Ok a).
Global Instance gen_bind : MBind Gen := λ A B f m i,
  match m i with
  | (o, Ok a) => let '(o', r) := f a i in (o ++ o', r)
  | (o, Raise e) => (o, Raise e)
  end.

Definition raise {A} (e : Error) : Gen A := λ _, ([], Raise e).
Definition lift {A} (r : result A) : Gen A := λ _, ([], r).

(** [with self.indent(): body]. *)
Definition indent {A} (body : Gen A) : Gen A := λ i, body (S i).

Definition emit_raw (s : string) : Gen unit := λ _, ([EmitRaw s], Ok ()).
Definition emit (s : string) : Gen unit := λ i, ([Emit i s], Ok ()).
Definition emit_wrapped_text (s subsequent_prefix : string) : Gen unit :=
  λ i, ([EmitWrapped i s subsequent_prefix], Ok ()).
Definition generate_multiline_list (items : list string) (before after : string)
    (delim : string * string) (compact : bool) : Gen unit :=
  λ i, ([MultilineList i items before after delim compact], Ok ()).

(** The defaults of [generate_multiline_list] for the keyword arguments a
    call leaves out. *)
Definition default_delim : string * string := ("(", ")").

(** What a run emitted, and how it ended. *)
Definition output {A} (r : list Emission * result A) : list Emission := r.1.
Definition outcome {A} (r : list Emission * result A) : result A := r.2.

(** [when c: body]. *)
Definition when (c : bool) (body : Gen unit) : Gen unit :=
  if c then body else mret ().

(** [for x in l: body x]. *)
Fixpoint for_each {A} (l : list A) (body : A → Gen unit) : Gen unit :=
  match l with
  | [] => mret ()
  | x :: l' => body x;; for_each l' body
  end.

(** ** Reading the output *)

(** [c] occurs in [s]. *)
Fixpoint contains_char (c : ascii) (s : string) : bool :=
  match s with
  | EmptyString => false
  | String d r => Ascii.eqb d c || contains_char c r
  end.

(** The call that writes a method prototype: the only multi-line list that
    is closed by a colon. *)
Definition is_declaration (e : Emission) : bool :=
  match e with
  | MultilineList _ _ _ after _ _ => String.eqb after ":"
  | _ => false
  end.

(** The call that writes the request invocation. *)
Definition is_request_call (e : Emission) : bool :=
  match e with
  | MultilineList _ _ before _ _ _ => String.eqb before "r = self.request"
  | _ => false
  end.

(** The namespace handed to the default-value renderer for a field. *)
Definition field_namespace (f : Field) : option string :=
  match field_data_type f with
  | Struct _ namespace _ _ _ | Union _ namespace _ _ => Some namespace
  | _ => None
  end.

(** The fields the docstring documents: those of [arg_data_type.fields]. *)
Definition documentable_fields (t : DataType) : list Field :=
  match t with
  | Struct _ _ _ fields _ | Union _ _ _ fields => fields
  | _ => []
  end.

Definition is_deprecated (route : Route) : bool :=
  match deprecated route with Some _ => true | None => false end.

Definition any_deprecated (api : Api) : bool :=
  existsb (λ ns, existsb is_deprecated (routes ns)) (namespaces_values api).

(** ** Sample schemas *)

Module Samples.

Definition fmt_plain (s : string) : string := s.
Definition fmt_obj (v : Value) : string :=
  match v with Literal repr => repr | TagRef _ tag => tag end.
Definition fmt_type (t : DataType) : string :=
  match t with
  | Void => "None"
  | Primitive n | Struct n _ _ _ _ | Union n _ _ _ => n
  | Nullable _ => "Nullable"
  | List _ => "list"
  end.
Definition class_name (t : DataType) : string :=
  match get_name t with Ok n => n | Raise _ => EmptyString end.
(** A [process_doc] for documentation without reference tags: the text is
    returned as it is, and a missing text is refused, as [process_doc]
    asserts that it is handed a string. *)
Definition process_doc (doc : option string)
    (handler : string → string → result string) : result string :=
  match doc with
  | Some text => Ok text
  | None => Raise (AssertionError "Expected string" None)
  end.

Definition no_attrs : gmap string AttrValue := ∅.
Definition style (s : string) : gmap string AttrValue := {["style" := AStr s]}.

Definition String_t : DataType := Primitive "String".
Definition Boolean_t : DataType := Primitive "Boolean".

Definition path_field : Field := mkField "path" String_t None None.
Definition include_media_info_field : Field :=
  mkField "include_media_info" (Nullable Boolean_t) None None.

Definition GetMetadataArg : DataType :=
  Struct "GetMetadataArg" "files" None
    [path_field; include_media_info_field]
    [path_field; include_media_info_field].
Definition Metadata : DataType :=
  Struct "Metadata" "files" None [mkField "name" String_t None None]
    [mkField "name" String_t None None].

Definition WriteMode : DataType :=
  Union "WriteMode" "files" None
    [mkField "add" Void None None; mkField "overwrite" Void None None].

Definition mode_field : Field :=
  mkField "mode" WriteMode None (Some (TagRef WriteMode "add")).
(** A field that is nullable and has a default at once. *)
Definition limit_field : Field :=
  mkField "limit" (Nullable (Primitive "UInt32")) None (Some (Literal "10")).

Definition CommitInfo : DataType :=
  Struct "CommitInfo" "files" None [path_field; mode_field; limit_field]
    [path_field; mode_field; limit_field].

Definition get_metadata : Route :=
  mkRoute "get_metadata" GetMetadataArg Metadata Void no_attrs
    (Some "Returns the metadata of a file or folder.") None.
Definition upload : Route :=
  mkRoute "upload" CommitInfo Metadata Void (style "upload")
    (Some "Creates a file with the contents of the request.") None.
Definition alpha_upload : Route :=
  mkRoute "alpha_upload" WriteMode Metadata Void (style "upload")
    (Some "Creates a file, as an earlier version did.")
    (Some (mkDeprecationInfo (Some "upload"))).
Definition download : Route :=
  mkRoute "download" GetMetadataArg Metadata Void (style "download")
    (Some "Downloads a file.") None.
Definition ping : Route :=
  mkRoute "ping" Void Void Void no_attrs (Some "Checks the connection.") None.
Definition echo : Route :=
  mkRoute "echo" String_t Void Void no_attrs (Some "Returns its argument.") None.

Definition files : Namespace :=
  mkNamespace "files" [GetMetadataArg; Metadata; WriteMode; CommitInfo]
    [get_metadata; upload; alpha_upload; download].
Definition check : Namespace := mkNamespace "check" [] [ping].

Definition api : Api := mkApi [("files", files); ("check", check)].
Definition args : Args := mkArgs "base" "DropboxBase".

(** A [process_doc] for documentation that is one reference with the tag
    [tag], whose payload is the text. *)
Definition process_doc_reference (tag : string) (doc : option string)
    (handler : string → string → result string) : result string :=
  match doc with
  | Some val => handler tag val
  | None => Raise (AssertionError "Expected string" None)
  end.

(** A tag default on a field whose type is a primitive. *)
Definition stray_mode_field : Field :=
  mkField "mode" String_t None (Some (TagRef WriteMode "add")).
Definition StrayArg : DataType :=
  Struct "StrayArg" "files" None [path_field; stray_mode_field]
    [path_field; stray_mode_field].

(** Routes whose error type is a primitive, with an overview and with an
    empty documentation text. *)
Definition status : Route :=
  mkRoute "status" Void Void String_t no_attrs (Some "Reports the status.") None.
Definition quiet_status : Route :=
  mkRoute "quiet_status" Void Void String_t no_attrs (Some EmptyString) None.

End Samples.

Section Generator.

(** The helpers imported from [stone.target.python_helpers] and
    [stone.target.python_types], and [process_doc] of [CodeGenerator]. *)
Variable fmt_class : string → string.
Variable fmt_func : string → string.
Variable fmt_var : string → string.
Variable fmt_obj : Value → string.
Variable fmt_type : DataType → string.
Variable class_name_for_data_type : DataType → string.
Variable process_doc :
  option string → (string → string → result string) → result string.

Variable args : Args.

(** ** Module constants *)

Definition base : string :=
  "# Auto-generated by Stone, do not modify." +:+ nl +:+ nl +:+
  "from abc import ABCMeta, abstractmethod" +:+ nl.

Definition DOCSTRING_CLOSE_RESPONSE : string :=
  "If you do not consume the entire response body, then you must call close on the" +:+ nl +:+
  "response object, otherwise you will max out your available connections. We" +:+ nl +:+
  "recommend using the `contextlib.closing" +:+ nl +:+
  "<https://docs.python.org/2/library/contextlib.html#contextlib.closing>`_" +:+ nl +:+
  "context manager to ensure this.".

(** ** [_docf] *)

Definition _docf (tag val : string) : result string :=
  if String.eqb tag "type" then
    Ok (":class:`" +:+ val +:+ "`")
  else if String.eqb tag "route" then
    Ok (":meth:`" +:+ fmt_func val +:+ "`")
  else if String.eqb tag "link" then
    match rsplit_space val with
    | Some (anchor, link) => Ok ("`" +:+ anchor +:+ " <" +:+ link +:+ ">`_")
    | None => Raise (ValueError "not enough values to unpack")
    end
  else if String.eqb tag "val" then
    if String.eqb val "null" then Ok "None"
    else if String.eqb val "true" || String.eqb val "false" then
      Ok ("``" +:+ capitalize val +:+ "``")
    else Ok val
  else if String.eqb tag "field" then
    Ok ("``" +:+ val +:+ "``")
  else
    Raise (RuntimeError "Unknown doc ref tag " tag).

(** ** [_format_type_in_doc] *)

Definition _format_type_in_doc (namespace : Namespace) (data_type : DataType)
    : string :=
  if is_void_type data_type then "None"
  else if is_user_defined_type data_type then
    ":class:`dropbox." +:+ ns_name namespace +:+ "." +:+ fmt_type data_type +:+ "`"
  else fmt_type data_type.

(** ** [_generate_python_value] *)

(** [namespace] is the namespace object handed in, known by its name, or
    [None]; [is_tag_ref(value)] is the test on the constructor of the
    value. *)
Definition _generate_python_value (namespace : option string) (value : Value)
    : result string :=
  match value with
  | TagRef union_data_type tag_name =>
      match namespace with
      | Some name =>
          Ok (name +:+ "." +:+ class_name_for_data_type union_data_type +:+
              "." +:+ fmt_var tag_name)
      | None => Raise (AttributeError "name")
      end
  | Literal _ => Ok (fmt_obj value)
  end.

(** ** [_generate_route_method_decl] *)

(** The body of the loop over [all_fields]: the text appended to [args] for
    one field. *)
Definition decl_field_arg (field : Field) : result string :=
  if is_nullable_type (field_data_type field) then
    Ok (field_name field +:+ "=None")
  else
    match field_default field with
    | Some default =>  (* [field.has_default] *)
        let ns :=
          if is_user_defined_type (field_data_type field) then
            match get_namespace (field_data_type field) with
            | Ok namespace => Ok (Some namespace)
            | Raise e => Raise e
            end
          else Ok None in
        match ns with
        | Ok ns =>
            match _generate_python_value ns default with
            | Ok v => Ok (field_name field +:+ "=" +:+ v)
            | Raise e => Raise e
            end
        | Raise e => Raise e
        end
    | None => Ok (field_name field)
    end.

(** [for field in arg_data_type.all_fields: args.append(...)]. *)
Fixpoint decl_struct_args (fields : list Field) (args : list string)
    : result (list string) :=
  match fields with
  | [] => Ok args
  | field :: rest =>
      match decl_field_arg field with
      | Ok a => decl_struct_args rest (args ++ [a])
      | Raise e => Raise e
      end
  end.

Definition _generate_route_method_decl (namespace : Namespace) (route : Route)
    (arg_data_type : DataType) (request_binary_body : bool)
    (method_name_suffix : option string) (extra_args : option (list string))
    : Gen unit :=
  let method_name := fmt_func (route_name route) in
  let namespace_name := fmt_func (ns_name namespace) in
  let method_name :=
    match method_name_suffix with
    | Some suffix => if truthy suffix then method_name +:+ suffix else method_name
    | None => method_name
    end in
  let args := ["self"] in
  let args :=
    match extra_args with
    | Some (x :: l) => args ++ x :: l
    | _ => args
    end in
  let args := if request_binary_body then args ++ ["f"] else args in
  args ←
    (if is_struct_type arg_data_type then
       all_fields ← lift (get_all_fields arg_data_type);
       lift (decl_struct_args all_fields args)
     else if is_union_type arg_data_type then
       mret (args ++ ["arg"])
     else if negb (is_void_type arg_data_type) then
       raise (AssertionError "Unhandled request type: " (Some arg_data_type))
     else mret args);
  generate_multiline_list args
    ("def " +:+ namespace_name +:+ "_" +:+ method_name) ":" default_delim true.

(** ** [_maybe_generate_deprecation_warning] *)

Definition _maybe_generate_deprecation_warning (route : Route) : Gen unit :=
  match deprecated route with
  | Some d =>
      let msg := route_name route +:+ " is deprecated." in
      let msg :=
        match by_route d with
        | Some name => msg +:+ " Use " +:+ name +:+ "."
        | None => msg
        end in
      let args := ["'" +:+ msg +:+ "'"; "DeprecationWarning"] in
      generate_multiline_list args "warnings.warn" EmptyString ("(", ")") false
  | None => mret ()
  end.

(** ** [_generate_docstring_for_func] *)

(** One entry of [extra_request_args]: [(name, data_type_name, doc)]. *)
Definition doc_extra_request_arg (a : string * option string * string)
    : Gen unit :=
  let '(name, data_type_name, doc) := a in
  match data_type_name with
  | Some t =>
      if truthy t then
        emit_wrapped_text (":param " +:+ t +:+ " " +:+ name +:+ ": " +:+ doc) "    "
      else
        emit_wrapped_text (":param " +:+ name +:+ ": " +:+ doc) "    "
  | None => emit_wrapped_text (":param " +:+ name +:+ ": " +:+ doc) "    "
  end.

(** The body of the loop over the fields of a struct argument. *)
Definition doc_struct_field (namespace : Namespace) (field : Field) : Gen unit :=
  if truthy_opt (field_doc field) then
    field_doc' ←
      (if is_user_defined_type (field_data_type field) then
         d ← lift (process_doc (field_doc field) _docf);
         mret (":param " +:+ field_name field +:+ ": " +:+ d)
       else
         d ← lift (process_doc (field_doc field) _docf);
         mret (":param " +:+ _format_type_in_doc namespace (field_data_type field)
               +:+ " " +:+ field_name field +:+ ": " +:+ d));
    emit_wrapped_text field_doc' "    ";;
    when (is_user_defined_type (field_data_type field))
      (emit (":type " +:+ field_name field +:+ ": " +:+
             _format_type_in_doc namespace (field_data_type field)))
  else
    emit_wrapped_text
      (":type " +:+ field_name field +:+ ": " +:+
       _format_type_in_doc namespace (field_data_type field)) EmptyString.

Definition nonempty {A} (l : list A) : bool :=
  match l with [] => false | _ :: _ => true end.

(** [if extra_request_args:] on a list or [None]. *)
Definition truthy_list {A} (l : option (list A)) : bool :=
  match l with Some l => nonempty l | None => false end.

(** The error section of the docstring. *)
Definition doc_error_section (namespace : Namespace) (error_data_type : DataType)
    : Gen unit :=
  has_error_fields ←
    (if negb (is_void_type error_data_type) then
       fs ← lift (get_fields error_data_type); mret (nonempty fs)
     else mret false);
  when has_error_fields
    (emit ":raises: :class:`dropbox.exceptions.ApiError`";;
     emit EmptyString;;
     emit "If this raises, ApiError.reason is of type:";;
     indent (emit (_format_type_in_doc namespace error_data_type))).

(** What is written between the opening and the closing quotes. *)
Definition docstring_body (namespace : Namespace)
    (arg_data_type result_data_type error_data_type : DataType)
    (fields : list Field) (overview : option string)
    (extra_request_args : option (list (string * option string * string)))
    (extra_return_arg footer : option string) : Gen unit :=
  when (truthy_opt overview)
    (emit_wrapped_text (default EmptyString overview) EmptyString);;
  when (truthy_list extra_request_args || nonempty fields)
    (when (truthy_opt overview) (emit EmptyString);;
     when (truthy_list extra_request_args)
       (for_each (default [] extra_request_args) doc_extra_request_arg);;
     if is_struct_type arg_data_type then
       for_each fields (doc_struct_field namespace)
     else if is_union_type arg_data_type then
       doc ← lift (get_doc arg_data_type);
       when (truthy_opt doc)
         (d ← lift (process_doc doc _docf);
          emit_wrapped_text (":param arg: " +:+ d) "    ");;
       emit (":type arg: " +:+ _format_type_in_doc namespace arg_data_type)
     else mret ());;
  when (truthy_opt overview &&
        negb (truthy_list extra_request_args || nonempty fields))
    (emit EmptyString);;
  (if truthy_opt extra_return_arg then
     let args := [] in
     let args :=
       if is_void_type result_data_type then args ++ ["None"]
       else args ++ [_format_type_in_doc namespace result_data_type] in
     let args := args ++ [default EmptyString extra_return_arg] in
     generate_multiline_list args ":rtype: " EmptyString default_delim true
   else if is_void_type result_data_type then
     emit ":rtype: None"
   else
     emit (":rtype: " +:+ _format_type_in_doc namespace result_data_type));;
  doc_error_section namespace error_data_type;;
  when (truthy_opt footer)
    (emit EmptyString;;
     emit_wrapped_text (default EmptyString footer) EmptyString).

Definition _generate_docstring_for_func (namespace : Namespace)
    (arg_data_type result_data_type error_data_type : DataType)
    (overview : option string)
    (extra_request_args : option (list (string * option string * string)))
    (extra_return_arg footer : option string) : Gen unit :=
  fields ←
    (if is_void_type arg_data_type then mret [] else lift (get_fields arg_data_type));
  if negb (nonempty fields) && negb (truthy_opt overview) then
    mret ()
  else
    emit triple_quote;;
    docstring_body namespace arg_data_type result_data_type error_data_type
      fields overview extra_request_args extra_return_arg footer;;
    emit triple_quote.

(** ** [_generate_route_helper] *)

(** [route.attrs.get('style') == s]. *)
Definition style_is (route : Route) (s : string) : bool :=
  bool_decide (attrs route !! "style" = Some (AStr s)).

(** The code that instantiates the request data type. *)
Definition materialize_request_arg (arg_data_type : DataType) : Gen unit :=
  if is_void_type arg_data_type then
    emit "arg = None"
  else if is_struct_type arg_data_type then
    all_fields ← lift (get_all_fields arg_data_type);
    namespace ← lift (get_namespace arg_data_type);
    name ← lift (get_name arg_data_type);
    generate_multiline_list (field_name <$> all_fields)
      ("arg = " +:+ namespace +:+ "." +:+ fmt_class name)
      EmptyString default_delim true
  else if negb (is_union_type arg_data_type) then
    raise (AssertionError "Unhandled request type " (Some arg_data_type))
  else mret ().

(** The code that makes the request. *)
Definition emit_request_call (namespace : Namespace) (route : Route)
    (request_binary_body : bool) : Gen unit :=
  let args :=
    [ns_name namespace +:+ "." +:+ fmt_var (route_name route);
     "'" +:+ ns_name namespace +:+ "'";
     "arg"] in
  let args := if request_binary_body then args ++ ["f"] else args ++ ["None"] in
  generate_multiline_list args "r = self.request" EmptyString default_delim false.

(** The statements that hand the result back. *)
Definition emit_return (result_data_type : DataType) (download_to_file : bool)
    : Gen unit :=
  if download_to_file then
    emit "self._save_body_to_file(download_path, r[1])";;
    if is_void_type result_data_type then emit "return None"
    else emit "return r[0]"
  else
    if is_void_type result_data_type then emit "return None"
    else emit "return r".

(** The values [_generate_route_helper] sets up for the docstring. *)
Definition helper_extra_request_args (request_binary_body download_to_file : bool)
    : option (list (string * option string * string)) :=
  if request_binary_body then
    Some [("f", None, "A string or file-like obj of data.")]
  else if download_to_file then
    Some [("download_path", Some "str", "Path on local machine to save file.")]
  else None.

Definition helper_extra_return_arg (response_binary_body : bool) : option string :=
  if response_binary_body then Some ":class:`requests.models.Response`" else None.

Definition helper_footer (response_binary_body download_to_file : bool)
    : option string :=
  if response_binary_body then
    if negb download_to_file then Some DOCSTRING_CLOSE_RESPONSE else None
  else None.

Definition _generate_route_helper (namespace : Namespace) (route : Route)
    (download_to_file : bool) : Gen unit :=
  let arg_data_type := arg_data_type route in
  let result_data_type := result_data_type route in
  let request_binary_body := style_is route "upload" in
  let response_binary_body := style_is route "download" in
  (if download_to_file then
     if response_binary_body then
       _generate_route_method_decl namespace route arg_data_type
         request_binary_body (Some "_to_file") (Some ["download_path"])
     else
       raise (AssertionError
                "download_to_file can only be set for download-style routes."
                None)
   else
     _generate_route_method_decl namespace route arg_data_type
       request_binary_body None None);;
  indent
    (let extra_request_args :=
       helper_extra_request_args request_binary_body download_to_file in
     let extra_return_arg := helper_extra_return_arg response_binary_body in
     let footer := helper_footer response_binary_body download_to_file in
     overview ← lift (process_doc (route_doc route) _docf);
     _generate_docstring_for_func namespace arg_data_type result_data_type
       (error_data_type route) (Some overview) extra_request_args
       extra_return_arg footer;;
     _maybe_generate_deprecation_warning route;;
     materialize_request_arg arg_data_type;;
     emit_request_call namespace route request_binary_body;;
     emit_return result_data_type download_to_file);;
  emit EmptyString.

(** ** [_generate_route], [_generate_route_methods], [_generate_imports] *)

Definition _generate_route (namespace : Namespace) (route : Route) : Gen unit :=
  _generate_route_helper namespace route false;;
  when (style_is route "download")
    (_generate_route_helper namespace route true).

Definition _generate_route_methods (namespaces : list Namespace) : Gen unit :=
  for_each namespaces (λ namespace,
    when (nonempty (routes namespace))
      (emit "# ------------------------------------------";;
       emit ("# Routes in " +:+ ns_name namespace +:+ " namespace");;
       emit EmptyString;;
       for_each (routes namespace) (λ route, _generate_route namespace route))).

Definition _generate_imports (namespaces : list Namespace) : Gen unit :=
  let ns_names_to_import :=
    ns_name <$> filter (λ ns, nonempty (data_types ns) = true) namespaces in
  emit "from . import (";;
  indent (for_each ns_names_to_import (λ ns, emit (ns +:+ ",")));;
  emit ")".

(** ** [generate] *)

(** The inner loop of the scan for a deprecated route: it stops at the first
    one, emits the import and reports [found_deprecated]. *)
Fixpoint import_warnings_in_routes (routes : list Route) : Gen bool :=
  match routes with
  | [] => mret false
  | route :: rest =>
      match deprecated route with
      | Some _ => emit "import warnings";; mret true
      | None => import_warnings_in_routes rest
      end
  end.

(** The outer loop, left as soon as [found_deprecated] is set. *)
Fixpoint import_warnings_if_deprecated (namespaces : list Namespace) : Gen bool :=
  match namespaces with
  | [] => mret false
  | namespace :: rest =>
      found_deprecated ← import_warnings_in_routes (routes namespace);
      if found_deprecated : bool then mret true
      else import_warnings_if_deprecated rest
  end.

(** The body run under [output_to_relative_path]. *)
Definition generate_body (api : Api) : Gen unit :=
  emit_raw base;;
  import_warnings_if_deprecated (namespaces_values api);;
  emit EmptyString;;
  _generate_imports (namespaces_values api);;
  emit EmptyString;;
  emit EmptyString;;
  emit ("class " +:+ class_name args +:+ "(object):");;
  indent
    (emit "__metaclass__ = ABCMeta";;
     emit EmptyString;;
     emit "@abstractmethod";;
     emit "def request(self, route, namespace, arg, arg_binary=None):";;
     indent (emit "pass");;
     emit EmptyString;;
     _generate_route_methods (namespaces_values api)).

(** [generate]: the path of the module written, and the run of the body
    from the outermost indentation. *)
Definition generate (api : Api) : string * (list Emission * result unit) :=
  (module_name args +:+ ".py", generate_body api 0).

(** ** The output the specification describes *)

(** The parameter of one field of a struct argument: [name=None] for a
    nullable field, [name=<rendered default>] for a field that is not
    nullable and declares a default, the bare name otherwise. *)
Inductive param_renders : Field → string → Prop :=
  | param_nullable f :
      is_nullable_type (field_data_type f) = true →
      param_renders f (field_name f +:+ "=None")
  | param_default f v s :
      is_nullable_type (field_data_type f) = false →
      field_default f = Some v →
      _generate_python_value (field_namespace f) v = Ok s →
      param_renders f (field_name f +:+ "=" +:+ s)
  | param_required f :
      is_nullable_type (field_data_type f) = false →
      field_default f = None →
      param_renders f (field_name f).

(** The parameters the argument data type contributes to a signature. *)
Definition arg_params (arg_data_type : DataType) (params : list string) : Prop :=
  match arg_data_type with
  | Void => params = []
  | Struct _ _ _ _ all_fields => Forall2 param_renders all_fields params
  | Union _ _ _ _ => params = ["arg"]
  | _ => False
  end.

(** The receiver, the extra parameters and the binary-body parameter. *)
Definition signature_prefix (request_binary_body : bool)
    (extra_args : option (list string)) : list string :=
  "self" :: default [] extra_args ++ (if request_binary_body then ["f"] else []).

Definition method_def (namespace : Namespace) (route : Route)
    (method_name_suffix : option string) : string :=
  "def " +:+ fmt_func (ns_name namespace) +:+ "_" +:+
  fmt_func (route_name route) +:+ default EmptyString method_name_suffix.

(** The prototype of a method, as handed to the emission utility. *)
Definition declaration (namespace : Namespace) (route : Route)
    (request_binary_body : bool) (method_name_suffix : option string)
    (extra_args : option (list string)) (params : list string) (i : nat)
    : Emission :=
  MultilineList i (signature_prefix request_binary_body extra_args ++ params)
    (method_def namespace route method_name_suffix) ":" ("(", ")") true.

(** The warning of a deprecated route. *)
Definition deprecation_message (route : Route) (d : DeprecationInfo) : string :=
  route_name route +:+ " is deprecated." +:+
  match by_route d with
  | Some replacement => " Use " +:+ replacement +:+ "."
  | None => EmptyString
  end.

Definition deprecation_warning (route : Route) (i : nat) : list Emission :=
  match deprecated route with
  | Some d =>
      [MultilineList i
         ["'" +:+ deprecation_message route d +:+ "'"; "DeprecationWarning"]
         "warnings.warn" EmptyString ("(", ")") false]
  | None => []
  end.

(** The statement that materializes the request argument. *)
Definition materialized (arg_data_type : DataType) (i : nat) : list Emission :=
  match arg_data_type with
  | Void => [Emit i "arg = None"]
  | Struct name namespace _ _ all_fields =>
      [MultilineList i (field_name <$> all_fields)
         ("arg = " +:+ namespace +:+ "." +:+ fmt_class name)
         EmptyString ("(", ")") true]
  | _ => []
  end.

(** The request invocation, with its binary-body argument. *)
Definition request_call (namespace : Namespace) (route : Route)
    (binary_body : string) (i : nat) : Emission :=
  MultilineList i
    [ns_name namespace +:+ "." +:+ fmt_var (route_name route);
     "'" +:+ ns_name namespace +:+ "'"; "arg"; binary_body]
    "r = self.request" EmptyString ("(", ")") false.

Definition binary_body_of (route : Route) : string :=
  if style_is route "upload" then "f" else "None".

Definition save_call (i : nat) : Emission :=
  Emit i "self._save_body_to_file(download_path, r[1])".

(** The return statement of the plain and of the file variant. *)
Definition return_statement (result_data_type : DataType)
    (download_to_file : bool) (i : nat) : Emission :=
  Emit i (if is_void_type result_data_type then "return None"
          else if download_to_file then "return r[0]" else "return r").

(** The extra parameter and the name suffix of the two variants. *)
Definition variant_suffix (download_to_file : bool) : option string :=
  if download_to_file then Some "_to_file" else None.
Definition variant_extra_args (download_to_file : bool) : option (list string) :=
  if download_to_file then Some ["download_path"] else None.

(** The statements of a method that follow its docstring. *)
Definition method_statements (namespace : Namespace) (route : Route)
    (download_to_file : bool) (i : nat) : list Emission :=
  deprecation_warning route i ++
  materialized (arg_data_type route) i ++
  request_call namespace route (binary_body_of route) i ::
  (if download_to_file then [save_call i] else []) ++
  [return_statement (result_data_type route) download_to_file i].

(** The prototypes and the request invocations among the emissions. *)
Definition declarations (out : list Emission) : list Emission :=
  List.filter is_declaration out.
Definition request_calls (out : list Emission) : list Emission :=
  List.filter is_request_call out.

(** The field [f] with another default, or none. *)
Definition with_default (f : Field) (d : option Value) : Field :=
  mkField (field_name f) (field_data_type f) (field_doc f) d.

(** The file-save call and the import of the deprecation facility among
    the emissions. *)
Definition is_save_call (e : Emission) : bool :=
  match e with
  | Emit _ s => String.eqb s "self._save_body_to_file(download_path, r[1])"
  | _ => false
  end.
Definition is_import_warnings (e : Emission) : bool :=
  match e with
  | Emit 0 s => String.eqb s "import warnings"
  | _ => false
  end.
Definition import_lines (out : list Emission) : list Emission :=
  List.filter is_import_warnings out.

(** What is left of a method once its prototype and its file-save call are
    taken out. *)
Definition without_prototype_and_save (out : list Emission) : list Emission :=
  List.filter (λ e, negb (is_declaration e) && negb (is_save_call e)) out.

(** ** Runs that emit only what a predicate allows *)

Definition emits_only {A} (P : nat → Emission → Prop) (m : Gen A) : Prop :=
  ∀ i, Forall (P i) (output (m i)).

(** Emissions are indented at least as deep as the scopes open around the
    run. *)
Definition indented (i : nat) (e : Emission) : Prop :=
  match e with
  | Emit k _ | EmitWrapped k _ _ | MultilineList k _ _ _ _ _ => i ≤ k
  | EmitRaw _ => False
  end.

(** Emissions that are neither a prototype nor a request invocation. *)
Definition plain_statement (i : nat) (e : Emission) : Prop :=
  is_declaration e = false ∧ is_request_call e = false.

(** Emissions other than the line of three quotes around a docstring. *)
Definition not_quotes (i : nat) (e : Emission) : Prop :=
  ∀ k, e ≠ Emit k triple_quote.

(** ** More readings of the output *)

(** The call that raises the deprecation warning. *)
Definition is_warn_call (e : Emission) : bool :=
  match e with
  | MultilineList _ _ before _ _ _ => String.eqb before "warnings.warn"
  | _ => false
  end.


(** The methods a route gets, and those of a list of namespaces. *)
Definition variants_of (route : Route) : nat :=
  if style_is route "download" then 2 else 1.
Definition methods_of (namespaces : list Namespace) : nat :=
  sum_list ((λ ns, sum_list (variants_of <$> routes ns)) <$> namespaces).

(** A field whose default is a tag reference although its type has no
    namespace to render it in. *)
Definition tag_default_without_namespace (f : Field) : bool :=
  negb (is_nullable_type (field_data_type f)) &&
  negb (is_user_defined_type (field_data_type f)) &&
  match field_default f with
  | Some (TagRef _ _) => true
  | _ => false
  end.

(** What [generate] writes before the methods of the routes. *)
Definition module_header (api : Api) : list Emission :=
  EmitRaw base ::
  (if any_deprecated api then [Emit 0 "import warnings"] else []) ++
  Emit 0 EmptyString ::
  output (_generate_imports (namespaces_values api) 0) ++
  [Emit 0 EmptyString; Emit 0 EmptyString;
   Emit 0 ("class " +:+ class_name args +:+ "(object):");
   Emit 1 "__metaclass__ = ABCMeta"; Emit 1 EmptyString;
   Emit 1 "@abstractmethod";
   Emit 1 "def request(self, route, namespace, arg, arg_binary=None):";
   Emit 2 "pass"; Emit 1 EmptyString].




(** The note on the return type: a line or a multi-line list that starts
    with [:rtype: ]. *)
Definition is_rtype (e : Emission) : bool :=
  match e with
  | Emit _ s => String.prefix ":rtype: " s
  | MultilineList _ _ before _ _ _ => String.eqb before ":rtype: "
  | _ => false
  end.

(** The text of a type in a return-type note. *)
Definition rtype_text (namespace : Namespace) (result_data_type : DataType)
    : string :=
  if is_void_type result_data_type then "None"
  else _format_type_in_doc namespace result_data_type.

(** * Properties *)

(** ** Strings *)

Lemma append_cons (c : ascii) (s t : string) :
  String c s +:+ t = String c (s +:+ t).
Proof. reflexivity. Qed.

Lemma append_empty_r (s : string) : s +:+ EmptyString = s.
Proof. induction s as [|c s IH]; [done | by rewrite append_cons, IH]. Qed.

Lemma rsplit_space_none (s : string) :
  contains_char " " s = false → rsplit_space s = None.
Proof.
  induction s as [|c s IH]; simpl; [done |].
  intros [Hc Hs]%orb_false_iff. by rewrite (IH Hs), Hc.
Qed.

Lemma rsplit_space_last (anchor url : string) :
  contains_char " " url = false →
  rsplit_space (anchor +:+ " " +:+ url) = Some (anchor, url).
Proof.
  intros Hurl. induction anchor as [|c a IH].
  - change (EmptyString +:+ " " +:+ url) with (String " " url).
    cbn [rsplit_space]. by rewrite (rsplit_space_none _ Hurl).
  - rewrite append_cons. cbn [rsplit_space]. by rewrite IH.
Qed.

Lemma dotted_inj (a a' rest rest' : string) :
  contains_char "." a = false → contains_char "." a' = false →
  a +:+ "." +:+ rest = a' +:+ "." +:+ rest' → a = a' ∧ rest = rest'.
Proof.
  change ("." +:+ rest) with (String "." rest).
  change ("." +:+ rest') with (String "." rest').
  revert a'. induction a as [|c a IH]; intros [|c' a']; cbn [contains_char];
    rewrite ?append_cons;
    change (EmptyString +:+ String "." rest) with (String "." rest);
    change (EmptyString +:+ String "." rest') with (String "." rest').
  - by intros _ _ [= ->].
  - intros _ [Hc _]%orb_false_iff [= <- _]. by rewrite Ascii.eqb_refl in Hc.
  - intros [Hc _]%orb_false_iff _ [= -> _]. by rewrite Ascii.eqb_refl in Hc.
  - intros [_ Ha]%orb_false_iff [_ Ha']%orb_false_iff [= -> H].
    by destruct (IH a' Ha Ha' H) as [-> ->].
Qed.

Lemma eqb_neq_false (s t : string) : s ≠ t → String.eqb s t = false.
Proof. by intros ?%String.eqb_neq. Qed.

(** ** The doc-tag translator *)

(** C7. [_docf] is a closed mapping over the five tags [type], [route],
    [link], [val] and [field]: a class reference, a method reference on the
    route name formatted as a method name, the anchor and the url split at
    the last space of the payload, [None] / a capitalized boolean / the
    payload itself, and an inline code literal.  Every other tag raises the
    error that reports the tag. *)
Theorem docf_closed_mapping :
  (∀ val, _docf "type" val = Ok (":class:`" +:+ val +:+ "`")) ∧
  (∀ val, _docf "route" val = Ok (":meth:`" +:+ fmt_func val +:+ "`")) ∧
  (∀ anchor url, contains_char " " url = false →
     _docf "link" (anchor +:+ " " +:+ url)
     = Ok ("`" +:+ anchor +:+ " <" +:+ url +:+ ">`_")) ∧
  _docf "val" "null" = Ok "None" ∧
  _docf "val" "true" = Ok "``True``" ∧
  _docf "val" "false" = Ok "``False``" ∧
  (∀ val, val ∉ ["null"; "true"; "false"] → _docf "val" val = Ok val) ∧
  (∀ val, _docf "field" val = Ok ("``" +:+ val +:+ "``")) ∧
  (∀ tag val, tag ∉ ["type"; "route"; "link"; "val"; "field"] →
     _docf tag val = Raise (RuntimeError "Unknown doc ref tag " tag)).
Proof.
  repeat split; try done.
  - intros anchor url Hurl. unfold _docf. simpl String.eqb.
    by rewrite (rsplit_space_last _ _ Hurl).
  - intros val Hval. rewrite !not_elem_of_cons in Hval.
    destruct Hval as (H1 & H2 & H3 & _). unfold _docf. simpl String.eqb.
    by rewrite !eqb_neq_false.
  - intros tag val Htag. rewrite !not_elem_of_cons in Htag.
    destruct Htag as (H1 & H2 & H3 & H4 & H5 & _). unfold _docf.
    by rewrite !eqb_neq_false.
Qed.

(** ** The default-value renderer *)

(** C8. A tagged-variant default of a field whose type is the union is
    rendered, in the field's parameter, as the reference
    [<namespace of the union>.<class name of the union>.<tag name>], with
    the class name and the tag name as the formatting helpers write them.
    The reference gives back the namespace, the union and the tag it was
    rendered from: where neither namespace nor class name holds a dot and
    the helpers write different unions and different tags differently, two
    defaults that are rendered alike have the same namespace, the same
    union name and the same tag. *)
Theorem tagged_default_roundtrip
    (name namespace tag field : string) (doc field_doc : option string)
    (fields : list Field) :
  let union := Union name namespace doc fields in
  let reference :=
    namespace +:+ "." +:+ class_name_for_data_type union +:+ "." +:+ fmt_var tag in
  _generate_python_value (Some namespace) (TagRef union tag) = Ok reference ∧
  decl_field_arg (mkField field union field_doc (Some (TagRef union tag)))
  = Ok (field +:+ "=" +:+ reference) ∧
  ∀ (name' namespace' tag' : string) (doc' : option string)
    (fields' : list Field),
    let union' := Union name' namespace' doc' fields' in
    contains_char "." namespace = false →
    contains_char "." namespace' = false →
    contains_char "." (class_name_for_data_type union) = false →
    contains_char "." (class_name_for_data_type union') = false →
    (class_name_for_data_type union = class_name_for_data_type union' →
     name = name') →
    (fmt_var tag = fmt_var tag' → tag = tag') →
    _generate_python_value (Some namespace) (TagRef union tag)
    = _generate_python_value (Some namespace') (TagRef union' tag') →
    namespace = namespace' ∧ name = name' ∧ tag = tag'.
Proof.
  intros union reference. split; [done |]. split; [done |].
  intros name' namespace' tag' doc' fields' union' Hns Hns' Hcls Hcls'
    Hclass Hvar. unfold _generate_python_value. cbn [is_tag_ref].
  intros [= H].
  apply dotted_inj in H as [<- H]; [|done..].
  apply dotted_inj in H as [Hc Ht]; [|done..].
  auto.
Qed.

(** ** Runs of generator actions *)

Lemma bind_run {A B} (m : Gen A) (f : A → Gen B) (i : nat) :
  (m ≫= f) i =
  match m i with
  | (o, Ok a) => (o ++ output (f a i), outcome (f a i))
  | (o, Raise e) => (o, Raise e)
  end.
Proof.
  unfold mbind, gen_bind. destruct (m i) as [o [a|e]]; [|done].
  by destruct (f a i).
Qed.

Lemma bind_ok {A B} (m : Gen A) (f : A → Gen B) (i : nat) o1 a o2 r :
  m i = (o1, Ok a) → f a i = (o2, r) → (m ≫= f) i = (o1 ++ o2, r).
Proof. intros Hm Hf. by rewrite bind_run, Hm, Hf. Qed.

Lemma bind_ok_inv {A B} (m : Gen A) (f : A → Gen B) (i : nat) out b :
  (m ≫= f) i = (out, Ok b) →
  ∃ o1 a o2, m i = (o1, Ok a) ∧ f a i = (o2, Ok b) ∧ out = o1 ++ o2.
Proof.
  rewrite bind_run. destruct (m i) as [o1 [a|e]] eqn:Hm; [|done].
  destruct (f a i) as [o2 r] eqn:Hf. unfold output, outcome. simpl.
  intros [= <- ->]. by exists o1, a, o2.
Qed.

(** ** The method prototype *)

Lemma decl_field_arg_spec (f : Field) (s : string) :
  decl_field_arg f = Ok s ↔ param_renders f s.
Proof.
  destruct f as [name t doc d]. unfold decl_field_arg. simpl. split.
  - destruct (is_nullable_type t) eqn:Hn.
    { intros [= <-]. by apply (param_nullable (mkField name t doc d)). }
    destruct d as [v|]; [|intros [= <-]; by apply param_required].
    destruct (_generate_python_value (field_namespace (mkField name t doc (Some v))) v)
      as [r|e] eqn:Hv.
    + unfold field_namespace in Hv; simpl in Hv.
      destruct t; simpl in *; rewrite Hv; intros [= <-];
        by apply (param_default (mkField name _ doc (Some v)) v r).
    + unfold field_namespace in Hv; simpl in Hv.
      destruct t; simpl in *; by rewrite Hv.
  - inversion 1 as [f' Hn|f' v r Hn Hd Hv|f' Hn Hd]; subst; simpl in *.
    + by rewrite Hn.
    + rewrite Hn. subst d. unfold field_namespace in Hv; simpl in Hv.
      destruct t; simpl in *; by rewrite Hv.
    + rewrite Hn. by subst d.
Qed.

Lemma decl_struct_args_spec (fields : list Field) (acc r : list string) :
  decl_struct_args fields acc = Ok r ↔
  ∃ params, Forall2 param_renders fields params ∧ r = acc ++ params.
Proof.
  revert acc r. induction fields as [|f fields IH]; intros acc r; simpl.
  - split.
    + intros [= <-]. exists []. by rewrite app_nil_r.
    + intros (params & ->%Forall2_nil_inv_l & ->). by rewrite app_nil_r.
  - destruct (decl_field_arg f) as [a|e] eqn:Hf.
    + rewrite IH. apply decl_field_arg_spec in Hf. split.
      * intros (params & Hps & ->). exists (a :: params).
        split; [by constructor | by rewrite <-app_assoc].
      * intros (params & Hps & ->).
        apply Forall2_cons_inv_l in Hps as (a' & params' & Ha' & Hps & ->).
        apply decl_field_arg_spec in Hf, Ha'.
        assert (a' = a) as -> by congruence.
        exists params'. split; [done | by rewrite <-app_assoc].
    + split; [done |]. intros (params & Hps & ->).
      apply Forall2_cons_inv_l in Hps as (a' & params' & Ha' & Hps & ->).
      apply decl_field_arg_spec in Ha'. congruence.
Qed.

Lemma param_renders_functional (f : Field) (s s' : string) :
  param_renders f s → param_renders f s' → s = s'.
Proof. rewrite <-!decl_field_arg_spec. congruence. Qed.

Lemma decl_prefix (request_binary_body : bool) (extra_args : option (list string)) :
  (let args := ["self"] in
   let args := match extra_args with Some (x :: l) => args ++ x :: l | _ => args end in
   if request_binary_body then args ++ ["f"] else args)
  = signature_prefix request_binary_body extra_args.
Proof.
  unfold signature_prefix.
  destruct extra_args as [[|x l]|], request_binary_body; simpl;
    by rewrite ?app_nil_r.
Qed.

Lemma decl_method_def (namespace : Namespace) (route : Route)
    (method_name_suffix : option string) :
  "def " +:+ fmt_func (ns_name namespace) +:+ "_" +:+
    match method_name_suffix with
    | Some suffix =>
        if truthy suffix then fmt_func (route_name route) +:+ suffix
        else fmt_func (route_name route)
    | None => fmt_func (route_name route)
    end
  = method_def namespace route method_name_suffix.
Proof.
  unfold method_def. destruct method_name_suffix as [[|c s]|]; simpl;
    by rewrite ?append_empty_r.
Qed.

(** A run of [_generate_route_method_decl] returns exactly when the argument
    data type contributes parameters, and then it writes the prototype with
    them. *)
Lemma decl_run (namespace : Namespace) (route : Route) (arg_data_type : DataType)
    (request_binary_body : bool) (method_name_suffix : option string)
    (extra_args : option (list string)) (i : nat) (o : list Emission) :
  _generate_route_method_decl namespace route arg_data_type
    request_binary_body method_name_suffix extra_args i = (o, Ok ()) ↔
  ∃ params, arg_params arg_data_type params ∧
    o = [declaration namespace route request_binary_body method_name_suffix
           extra_args params i].
Proof.
  unfold _generate_route_method_decl, declaration.
  rewrite decl_prefix, decl_method_def.
  destruct arg_data_type as [|n|t|t|n ns d fs afs|n ns d fs]; simpl.
  - rewrite bind_run. simpl. split.
    + intros [= <-]. exists []. by rewrite app_nil_r.
    + intros (params & -> & ->). by rewrite app_nil_r.
  - rewrite bind_run. simpl. split; [done | by intros (? & [] & _)].
  - rewrite bind_run. simpl. split; [done | by intros (? & [] & _)].
  - rewrite bind_run. simpl. split; [done | by intros (? & [] & _)].
  - rewrite !bind_run. simpl.
    destruct (decl_struct_args afs _) as [r|e] eqn:Hr; simpl.
    + apply decl_struct_args_spec in Hr as (params & Hps & ->). split.
      * intros [= <-]. by exists params.
      * intros (params' & Hps' & ->).
        assert (params' = params) as ->; [|done].
        eapply Forall2_unique; [done..|]. apply param_renders_functional.
    + split; [done |]. intros (params & Hps & _).
      assert (decl_struct_args afs (signature_prefix request_binary_body extra_args)
              = Ok (signature_prefix request_binary_body extra_args ++ params))
        by (apply decl_struct_args_spec; eauto).
      congruence.
  - rewrite bind_run. simpl. split.
    + intros [= <-]. by exists ["arg"].
    + by intros (params & -> & ->).
Qed.

(** ** What a run emits *)

Section EmitsOnly.

Variable P : nat → Emission → Prop.

Lemma emits_only_ret {A} (a : A) : emits_only P (mret a).
Proof. intros i. constructor. Qed.

Lemma emits_only_raise {A} (e : Error) : emits_only P (@raise A e).
Proof. intros i. constructor. Qed.

Lemma emits_only_lift {A} (r : result A) : emits_only P (lift r).
Proof. intros i. constructor. Qed.

Lemma emits_only_bind {A B} (m : Gen A) (f : A → Gen B) :
  emits_only P m → (∀ a, emits_only P (f a)) → emits_only P (m ≫= f).
Proof.
  intros Hm Hf i. rewrite bind_run. specialize (Hm i).
  destruct (m i) as [o [a|e]]; [|done].
  apply Forall_app. split; [done | apply Hf].
Qed.

Lemma emits_only_when (c : bool) (body : Gen unit) :
  emits_only P body → emits_only P (when c body).
Proof. destruct c; [done | intros _; apply emits_only_ret]. Qed.

Lemma emits_only_for_each {A} (l : list A) (body : A → Gen unit) :
  (∀ x, emits_only P (body x)) → emits_only P (for_each l body).
Proof.
  intros Hbody. induction l as [|x l IH]; simpl.
  - apply emits_only_ret.
  - by apply emits_only_bind.
Qed.

Lemma emits_only_indent {A} (body : Gen A) :
  (∀ i e, P (S i) e → P i e) → emits_only P body → emits_only P (indent body).
Proof.
  intros Hmono Hbody i. unfold indent.
  eapply Forall_impl; [apply Hbody | apply Hmono].
Qed.

Lemma emits_only_emit (s : string) :
  (∀ i, P i (Emit i s)) → emits_only P (emit s).
Proof. intros H i. by repeat constructor. Qed.

Lemma emits_only_emit_wrapped_text (s subsequent_prefix : string) :
  (∀ i, P i (EmitWrapped i s subsequent_prefix)) →
  emits_only P (emit_wrapped_text s subsequent_prefix).
Proof. intros H i. by repeat constructor. Qed.

Lemma emits_only_generate_multiline_list (items : list string)
    (before after : string) (delim : string * string) (compact : bool) :
  (∀ i, P i (MultilineList i items before after delim compact)) →
  emits_only P (generate_multiline_list items before after delim compact).
Proof. intros H i. by repeat constructor. Qed.

End EmitsOnly.

(** One step through the structure of a generator action. *)
Ltac emits_only_step :=
  lazymatch goal with
  | |- emits_only _ (mret _) => apply emits_only_ret
  | |- emits_only _ (raise _) => apply emits_only_raise
  | |- emits_only _ (lift _) => apply emits_only_lift
  | |- emits_only _ (_ ≫= _) => apply emits_only_bind; [|intros ?]
  | |- emits_only _ (when _ _) => apply emits_only_when
  | |- emits_only _ (for_each _ _) => apply emits_only_for_each; intros ?
  | |- emits_only _ (emit _) => apply emits_only_emit; intros ?
  | |- emits_only _ (emit_wrapped_text _ _) =>
      apply emits_only_emit_wrapped_text; intros ?
  | |- emits_only _ (generate_multiline_list _ _ _ _ _) =>
      apply emits_only_generate_multiline_list; intros ?
  | |- emits_only _ (if ?b then _ else _) => destruct b
  | |- emits_only _ (match ?x with _ => _ end) => destruct x
  end.

Lemma indented_mono (i : nat) (e : Emission) : indented (S i) e → indented i e.
Proof. destruct e; simpl; lia. Qed.

Ltac indented_tac :=
  repeat first
    [ emits_only_step
    | apply emits_only_indent; [apply indented_mono |] ];
  try (simpl; lia).

Lemma decl_indented namespace route arg_data_type request_binary_body
    method_name_suffix extra_args :
  emits_only indented
    (_generate_route_method_decl namespace route arg_data_type
       request_binary_body method_name_suffix extra_args).
Proof. unfold _generate_route_method_decl. indented_tac. Qed.

Lemma doc_struct_field_indented namespace field :
  emits_only indented (doc_struct_field namespace field).
Proof. unfold doc_struct_field. indented_tac. Qed.

Lemma doc_extra_request_arg_indented a :
  emits_only indented (doc_extra_request_arg a).
Proof. unfold doc_extra_request_arg. destruct a as [[??]?]. indented_tac. Qed.

Lemma docstring_indented namespace arg_data_type result_data_type
    error_data_type overview extra_request_args extra_return_arg footer :
  emits_only indented
    (_generate_docstring_for_func namespace arg_data_type result_data_type
       error_data_type overview extra_request_args extra_return_arg footer).
Proof.
  unfold _generate_docstring_for_func, docstring_body, doc_error_section.
  repeat first
    [ apply doc_struct_field_indented
    | apply doc_extra_request_arg_indented
    | emits_only_step
    | apply emits_only_indent; [apply indented_mono |] ];
  try (simpl; lia).
Qed.

Lemma helper_indented namespace route download_to_file :
  emits_only indented (_generate_route_helper namespace route download_to_file).
Proof.
  unfold _generate_route_helper, _maybe_generate_deprecation_warning,
    materialize_request_arg, emit_request_call, emit_return.
  repeat first
    [ apply decl_indented
    | apply docstring_indented
    | emits_only_step
    | apply emits_only_indent; [apply indented_mono |] ];
  try (simpl; lia).
Qed.

Lemma route_methods_indented namespaces :
  emits_only indented (_generate_route_methods namespaces).
Proof.
  unfold _generate_route_methods, _generate_route.
  repeat first [ apply helper_indented | emits_only_step ]; try (simpl; lia).
Qed.

Ltac plain_tac :=
  repeat first
    [ emits_only_step | apply emits_only_indent; [done |] ];
  try (split; reflexivity).

Lemma docstring_plain namespace arg_data_type result_data_type
    error_data_type overview extra_request_args extra_return_arg footer :
  emits_only plain_statement
    (_generate_docstring_for_func namespace arg_data_type result_data_type
       error_data_type overview extra_request_args extra_return_arg footer).
Proof.
  unfold _generate_docstring_for_func, docstring_body, doc_error_section,
    doc_struct_field, doc_extra_request_arg.
  plain_tac.
Qed.

Lemma quotes_head (c : ascii) (s : string) :
  c ≠ dquote → String c s ≠ triple_quote.
Proof. intros Hc [= ? _]. done. Qed.

Lemma doc_error_section_not_quotes namespace error_data_type :
  emits_only not_quotes (doc_error_section namespace error_data_type).
Proof.
  intros i. unfold doc_error_section.
  destruct error_data_type as [|n|t|t|n ns d [|f fs] afs|n ns d [|f fs]];
    try (repeat constructor);
    intros k [= _ H]; revert H; try done;
    unfold _format_type_in_doc; simpl; by apply quotes_head.
Qed.

Lemma docstring_body_not_quotes namespace arg_data_type result_data_type
    error_data_type fields overview extra_request_args extra_return_arg footer :
  emits_only not_quotes
    (docstring_body namespace arg_data_type result_data_type error_data_type
       fields overview extra_request_args extra_return_arg footer).
Proof.
  unfold docstring_body, doc_struct_field, doc_extra_request_arg.
  repeat first
    [ apply doc_error_section_not_quotes
    | emits_only_step | apply emits_only_indent; [done |] ];
  intros k; try done; intros [= _ H]; revert H; by apply quotes_head.
Qed.

(** ** The run of [_generate_route_helper] *)

Lemma append_assoc (a b c : string) : (a +:+ b) +:+ c = a +:+ b +:+ c.
Proof. induction a as [|x a IH]; [done | by rewrite !append_cons, IH]. Qed.

Lemma deprecation_run (route : Route) (i : nat) :
  _maybe_generate_deprecation_warning route i
  = (deprecation_warning route i, Ok ()).
Proof.
  unfold _maybe_generate_deprecation_warning, deprecation_warning,
    deprecation_message.
  destruct (deprecated route) as [[[r|]]|]; simpl; [| |done].
  - by rewrite (append_assoc (route_name route)).
  - by rewrite append_empty_r.
Qed.

Lemma materialize_run (arg_data_type : DataType) (i : nat) :
  materialize_request_arg arg_data_type i =
  if is_void_type arg_data_type || is_struct_type arg_data_type
     || is_union_type arg_data_type
  then (materialized arg_data_type i, Ok ())
  else ([], Raise (AssertionError "Unhandled request type " (Some arg_data_type))).
Proof. by destruct arg_data_type. Qed.

Lemma request_run (namespace : Namespace) (route : Route)
    (request_binary_body : bool) (i : nat) :
  emit_request_call namespace route request_binary_body i
  = ([request_call namespace route
        (if request_binary_body then "f" else "None") i], Ok ()).
Proof. by destruct request_binary_body. Qed.

Lemma return_run (result_data_type : DataType) (download_to_file : bool) (i : nat) :
  emit_return result_data_type download_to_file i
  = ((if download_to_file then [save_call i] else []) ++
     [return_statement result_data_type download_to_file i], Ok ()).
Proof.
  unfold emit_return, return_statement.
  by destruct download_to_file, (is_void_type result_data_type).
Qed.

Lemma arg_params_shape (arg_data_type : DataType) (params : list string) :
  arg_params arg_data_type params →
  is_void_type arg_data_type || is_struct_type arg_data_type
  || is_union_type arg_data_type = true.
Proof. by destruct arg_data_type. Qed.

(** A run of [_generate_route_helper] that returns wrote the prototype, the
    docstring, the statements of the method and a blank line. *)
Lemma helper_run (namespace : Namespace) (route : Route)
    (download_to_file : bool) (i : nat) (out : list Emission) :
  _generate_route_helper namespace route download_to_file i = (out, Ok ()) →
  ∃ params overview doc_out,
    (download_to_file = true → style_is route "download" = true) ∧
    arg_params (arg_data_type route) params ∧
    process_doc (route_doc route) _docf = Ok overview ∧
    _generate_docstring_for_func namespace (arg_data_type route)
      (result_data_type route) (error_data_type route) (Some overview)
      (helper_extra_request_args (style_is route "upload") download_to_file)
      (helper_extra_return_arg (style_is route "download"))
      (helper_footer (style_is route "download") download_to_file) (S i)
    = (doc_out, Ok ()) ∧
    out =
      declaration namespace route (style_is route "upload")
        (variant_suffix download_to_file) (variant_extra_args download_to_file)
        params i ::
      doc_out ++ method_statements namespace route download_to_file (S i) ++
      [Emit i EmptyString].
Proof.
  intros H. unfold _generate_route_helper in H.
  apply bind_ok_inv in H as (o1 & [] & o2 & Hdecl & H & ->).
  apply bind_ok_inv in H as (o3 & [] & o4 & Hbody & [= <-] & ->).
  unfold indent in Hbody.
  apply bind_ok_inv in Hbody as (o5 & overview & o6 & [= <- Hov] & Hbody & ->).
  apply bind_ok_inv in Hbody as (doc_out & [] & o7 & Hdoc & Hbody & ->).
  rewrite bind_run, deprecation_run in Hbody.
  rewrite bind_run, materialize_run in Hbody.
  assert (∃ params, arg_params (arg_data_type route) params ∧
            (download_to_file = true → style_is route "download" = true) ∧
            o1 = [declaration namespace route (style_is route "upload")
                    (variant_suffix download_to_file)
                    (variant_extra_args download_to_file) params i])
    as (params & Hparams & Hstyle & ->).
  { destruct download_to_file; [destruct (style_is route "download")|];
      [| done |]; apply decl_run in Hdecl as (params & ? & ->); by exists params. }
  rewrite (arg_params_shape _ _ Hparams) in Hbody.
  rewrite bind_run, request_run, return_run in Hbody.
  unfold output, outcome in Hbody. simpl in Hbody.
  injection Hbody as <-.
  exists params, overview, doc_out. repeat split; try done.
  unfold method_statements, binary_body_of. simpl.
  by rewrite <-!app_assoc.
Qed.

(** The method is written whenever the argument data type contributes
    parameters, the documentation of the route is rendered and the
    docstring is written. *)
Lemma helper_returns (namespace : Namespace) (route : Route)
    (download_to_file : bool) (i : nat) params overview doc_out :
  (download_to_file = true → style_is route "download" = true) →
  arg_params (arg_data_type route) params →
  process_doc (route_doc route) _docf = Ok overview →
  _generate_docstring_for_func namespace (arg_data_type route)
    (result_data_type route) (error_data_type route) (Some overview)
    (helper_extra_request_args (style_is route "upload") download_to_file)
    (helper_extra_return_arg (style_is route "download"))
    (helper_footer (style_is route "download") download_to_file) (S i)
  = (doc_out, Ok ()) →
  _generate_route_helper namespace route download_to_file i =
  (declaration namespace route (style_is route "upload")
     (variant_suffix download_to_file) (variant_extra_args download_to_file)
     params i ::
   doc_out ++ method_statements namespace route download_to_file (S i) ++
   [Emit i EmptyString], Ok ()).
Proof.
  intros Hstyle Hparams Hov Hdoc. unfold _generate_route_helper.
  lazymatch goal with
  | |- (?m ≫= _) i = _ =>
      assert (m i = ([declaration namespace route (style_is route "upload")
                        (variant_suffix download_to_file)
                        (variant_extra_args download_to_file) params i], Ok ()))
        as Hdecl
  end.
  { destruct download_to_file; [rewrite Hstyle by done |];
      apply decl_run; by exists params. }
  transitivity
    ([declaration namespace route (style_is route "upload")
        (variant_suffix download_to_file)
        (variant_extra_args download_to_file) params i] ++
     ([] ++ doc_out ++ deprecation_warning route (S i) ++
      materialized (arg_data_type route) (S i) ++
      [request_call namespace route (binary_body_of route) (S i)] ++
      (if download_to_file then [save_call (S i)] else []) ++
      [return_statement (result_data_type route) download_to_file (S i)]) ++
     [Emit i EmptyString], Ok ()).
  - eapply bind_ok; [exact Hdecl |].
    eapply bind_ok; [|reflexivity]. unfold indent.
    eapply bind_ok; [unfold lift; by rewrite Hov |].
    eapply bind_ok; [exact Hdoc |].
    eapply bind_ok; [apply deprecation_run |].
    eapply bind_ok.
    { rewrite materialize_run. by rewrite (arg_params_shape _ _ Hparams). }
    eapply bind_ok; [apply request_run | apply return_run].
  - unfold method_statements. simpl. by rewrite <-!app_assoc.
Qed.

(** ** The docstring *)

(** A run of [_generate_docstring_for_func] that returns wrote nothing when
    there is neither an overview nor a field to document, and one block
    between two lines of quotes otherwise. *)
Lemma docstring_run_ok namespace arg_data_type result_data_type
    error_data_type overview extra_request_args extra_return_arg footer i out :
  _generate_docstring_for_func namespace arg_data_type result_data_type
    error_data_type overview extra_request_args extra_return_arg footer i
  = (out, Ok ()) →
  if negb (nonempty (documentable_fields arg_data_type)) &&
     negb (truthy_opt overview)
  then out = []
  else ∃ middle, out = Emit i triple_quote :: middle ++ [Emit i triple_quote] ∧
                 Forall (not_quotes i) middle.
Proof.
  unfold _generate_docstring_for_func. intros H.
  apply bind_ok_inv in H as (o1 & fields & o2 & Hf & H & ->).
  assert (o1 = [] ∧ fields = documentable_fields arg_data_type) as [-> ->].
  { destruct arg_data_type; simpl in Hf; by inversion Hf. }
  destruct (negb (nonempty (documentable_fields arg_data_type)) &&
            negb (truthy_opt overview)); [by inversion H |].
  apply bind_ok_inv in H as (oq & [] & o3 & [= <-] & H & ->).
  apply bind_ok_inv in H as (middle & [] & o4 & Hbody & [= <-] & ->).
  exists middle. split; [done |].
  pose proof (docstring_body_not_quotes namespace arg_data_type
    result_data_type error_data_type (documentable_fields arg_data_type)
    overview extra_request_args extra_return_arg footer i) as HP.
  by rewrite Hbody in HP.
Qed.

(** ** Prototypes and request invocations in the output *)

Lemma plain_statements_filtered (i : nat) (l : list Emission) :
  Forall (plain_statement i) l → declarations l = [] ∧ request_calls l = [].
Proof.
  unfold declarations, request_calls.
  induction 1 as [|e l [He1 He2] _ [IH1 IH2]]; simpl; [done |].
  by rewrite He1, He2.
Qed.

Lemma method_statements_filtered namespace route download_to_file i :
  declarations (method_statements namespace route download_to_file i) = [] ∧
  request_calls (method_statements namespace route download_to_file i)
  = [request_call namespace route (binary_body_of route) i].
Proof.
  unfold method_statements, declarations, request_calls.
  rewrite !List.filter_app. simpl.
  assert (Forall (plain_statement i) (deprecation_warning route i)) as H1.
  { unfold deprecation_warning. destruct (deprecated route); by repeat constructor. }
  assert (Forall (plain_statement i) (materialized (arg_data_type route) i)) as H2.
  { destruct (arg_data_type route); by repeat constructor. }
  assert (Forall (plain_statement i)
            ((if download_to_file then [save_call i] else []) ++
             [return_statement (result_data_type route) download_to_file i])) as H3.
  { destruct download_to_file; by repeat constructor. }
  apply plain_statements_filtered in H1 as [H1 H1'], H2 as [H2 H2'], H3 as [H3 H3'].
  unfold declarations, request_calls in *.
  by rewrite H1, H1', H2, H2', H3, H3'.
Qed.

(** A run of [_generate_route_helper] that returns wrote one prototype and
    one request invocation. *)
Lemma helper_filtered namespace route download_to_file i out :
  _generate_route_helper namespace route download_to_file i = (out, Ok ()) →
  ∃ params, arg_params (arg_data_type route) params ∧
    declarations out =
      [declaration namespace route (style_is route "upload")
         (variant_suffix download_to_file) (variant_extra_args download_to_file)
         params i] ∧
    request_calls out = [request_call namespace route (binary_body_of route) (S i)].
Proof.
  intros H. apply helper_run in H
    as (params & overview & doc_out & _ & Hparams & _ & Hdoc & ->).
  exists params. split; [done |].
  pose proof (docstring_plain namespace (arg_data_type route)
    (result_data_type route) (error_data_type route) (Some overview)
    (helper_extra_request_args (style_is route "upload") download_to_file)
    (helper_extra_return_arg (style_is route "download"))
    (helper_footer (style_is route "download") download_to_file) (S i)) as HP.
  rewrite Hdoc in HP. unfold output in HP. simpl in HP.
  apply plain_statements_filtered in HP as [HP1 HP2].
  destruct (method_statements_filtered namespace route download_to_file (S i))
    as [HM1 HM2].
  unfold declarations, request_calls in *. simpl.
  by rewrite !List.filter_app, HP1, HP2, HM1, HM2.
Qed.

Lemma arg_params_functional arg_data_type params params' :
  arg_params arg_data_type params → arg_params arg_data_type params' →
  params = params'.
Proof.
  destruct arg_data_type; simpl; try congruence; try done.
  intros H1 H2. eapply Forall2_unique; [done..|]. apply param_renders_functional.
Qed.

(** ** The signature of a struct argument *)

(** C1. For a struct argument the prototype lists, after the receiver, the
    extra parameters and the binary-body parameter, one parameter per field
    of [all_fields], in that order: [name=None] for a nullable field,
    [name=<rendered default>] for a field that is not nullable and has a
    default, and the bare name for every other field.  The prototype is
    the first thing a route method writes. *)
Theorem struct_signature_parameters (namespace : Namespace) (route : Route)
    (name ns : string) (doc : option string) (fields all_fields : list Field)
    (i : nat) :
  (∀ request_binary_body method_name_suffix extra_args o,
     _generate_route_method_decl namespace route
       (Struct name ns doc fields all_fields) request_binary_body
       method_name_suffix extra_args i = (o, Ok ()) ↔
     ∃ params, Forall2 param_renders all_fields params ∧
       o = [MultilineList i
              (("self" :: default [] extra_args ++
                (if request_binary_body then ["f"] else [])) ++ params)
              (method_def namespace route method_name_suffix) ":" ("(", ")")
              true]) ∧
  (∀ download_to_file out,
     arg_data_type route = Struct name ns doc fields all_fields →
     _generate_route_helper namespace route download_to_file i = (out, Ok ()) →
     ∃ params rest, Forall2 param_renders all_fields params ∧
       out = MultilineList i
               (("self" :: default [] (variant_extra_args download_to_file) ++
                 (if style_is route "upload" then ["f"] else [])) ++ params)
               (method_def namespace route (variant_suffix download_to_file))
               ":" ("(", ")") true :: rest).
Proof.
  split.
  - intros rbb suffix extra o. apply decl_run.
  - intros dtf out Harg H. apply helper_run in H
      as (params & overview & doc_out & _ & Hparams & _ & _ & ->).
    rewrite Harg in Hparams. exists params. eexists.
    split; [exact Hparams | reflexivity].
Qed.

(** C10. A field that is nullable and has a default is written [name=None]:
    the nullable rule comes first, and the default is never rendered, so a
    prototype is the same whatever the default of such a field is. *)
Theorem nullable_precedes_default (f : Field) (v : Value) :
  is_nullable_type (field_data_type f) = true →
  field_default f = Some v →
  decl_field_arg f = Ok (field_name f +:+ "=None") ∧
  (∀ s, param_renders f s → s = field_name f +:+ "=None") ∧
  (∀ d namespace route name ns doc fields before after request_binary_body
     method_name_suffix extra_args i,
     _generate_route_method_decl namespace route
       (Struct name ns doc fields (before ++ f :: after)) request_binary_body
       method_name_suffix extra_args i
     = _generate_route_method_decl namespace route
         (Struct name ns doc fields (before ++ with_default f d :: after))
         request_binary_body method_name_suffix extra_args i).
Proof.
  intros Hn Hd.
  assert (∀ d, decl_field_arg (with_default f d) = Ok (field_name f +:+ "=None"))
    as Hwith.
  { intros d. unfold decl_field_arg. simpl. by rewrite Hn. }
  assert (decl_field_arg f = Ok (field_name f +:+ "=None")) as Hf.
  { unfold decl_field_arg. by rewrite Hn. }
  split; [done |]. split.
  - intros s Hs%decl_field_arg_spec. congruence.
  - intros d namespace route name ns doc fields before after rbb suffix extra i.
    unfold _generate_route_method_decl. rewrite decl_prefix, decl_method_def.
    simpl. rewrite !bind_run. simpl.
    assert (∀ acc, decl_struct_args (before ++ f :: after) acc
                   = decl_struct_args (before ++ with_default f d :: after) acc)
      as ->; [|done].
    induction before as [|g before IH]; intros acc; simpl.
    + by rewrite Hf, Hwith.
    + destruct (decl_field_arg g); [apply IH | done].
Qed.

(** ** Failures *)

(** C9. An argument data type that is none of Void, Struct and Union makes
    the construction of the signature and the materialization of the
    request argument raise an error that carries the offending type, and
    so does the method of a route with such an argument; and asking for
    the file variant of a route whose style is not [download] fails on the
    precondition, before anything is written. *)
Theorem unhandled_shapes_are_fatal (namespace : Namespace) (i : nat) :
  (∀ shape,
     is_void_type shape = false →
     is_struct_type shape = false →
     is_union_type shape = false →
     (∀ route request_binary_body method_name_suffix extra_args,
        _generate_route_method_decl namespace route shape
          request_binary_body method_name_suffix extra_args i
        = ([], Raise (AssertionError "Unhandled request type: "
                        (Some shape)))) ∧
     materialize_request_arg shape i
     = ([], Raise (AssertionError "Unhandled request type " (Some shape))) ∧
     (∀ route download_to_file,
        arg_data_type route = shape →
        (download_to_file = true → style_is route "download" = true) →
        _generate_route_helper namespace route download_to_file i
        = ([], Raise (AssertionError "Unhandled request type: "
                        (Some shape))))) ∧
  (∀ route, style_is route "download" = false →
     _generate_route_helper namespace route true i
     = ([], Raise (AssertionError
                     "download_to_file can only be set for download-style routes."
                     None))).
Proof.
  split.
  - intros t Hv Hs Hu.
    assert (∀ route rbb suffix extra,
              _generate_route_method_decl namespace route t rbb suffix extra i
              = ([], Raise (AssertionError "Unhandled request type: " (Some t))))
      as Hdecl.
    { intros route rbb suffix extra. unfold _generate_route_method_decl.
      rewrite Hs, Hu, Hv. by rewrite bind_run. }
    split; [done |]. split.
    + rewrite materialize_run. by rewrite Hv, Hs, Hu.
    + intros route dtf <- Hstyle. unfold _generate_route_helper.
      rewrite bind_run.
      destruct dtf; [rewrite Hstyle by done |]; by rewrite Hdecl.
  - intros route Hstyle. unfold _generate_route_helper.
    by rewrite bind_run, Hstyle.
Qed.

(** ** The request argument *)

(** C2. The body of a method materializes the request argument right
    before the request invocation: [arg = None] for a Void argument, a
    literal of the argument type built from the names of [all_fields], in
    their order, for a struct, and nothing for a union, whose single
    parameter [arg] is what the invocation passes.  The invocation passes
    [arg] in every case, and it is the only one of the method. *)
Theorem request_argument_materialized (namespace : Namespace) (route : Route)
    (download_to_file : bool) (i : nat) (out : list Emission) :
  _generate_route_helper namespace route download_to_file i = (out, Ok ()) →
  ∃ params doc_out rest,
    arg_params (arg_data_type route) params ∧
    Forall (plain_statement (S i)) doc_out ∧
    out =
      declaration namespace route (style_is route "upload")
        (variant_suffix download_to_file) (variant_extra_args download_to_file)
        params i ::
      doc_out ++ deprecation_warning route (S i) ++
      match arg_data_type route with
      | Void => [Emit (S i) "arg = None"]
      | Struct name ns _ _ all_fields =>
          [MultilineList (S i) (field_name <$> all_fields)
             ("arg = " +:+ ns +:+ "." +:+ fmt_class name)
             EmptyString ("(", ")") true]
      | _ => []
      end ++
      MultilineList (S i)
        [ns_name namespace +:+ "." +:+ fmt_var (route_name route);
         "'" +:+ ns_name namespace +:+ "'"; "arg"; binary_body_of route]
        "r = self.request" EmptyString ("(", ")") false :: rest ∧
    request_calls out = [request_call namespace route (binary_body_of route) (S i)] ∧
    (is_union_type (arg_data_type route) = true → params = ["arg"]).
Proof.
  intros H. destruct (helper_filtered _ _ _ _ _ H) as (params' & Hparams' & _ & Hreq).
  apply helper_run in H
    as (params & overview & doc_out & _ & Hparams & _ & Hdoc & ->).
  exists params, doc_out. eexists. split; [done |]. split; [|split; [|split]].
  - pose proof (docstring_plain namespace (arg_data_type route)
      (result_data_type route) (error_data_type route) (Some overview)
      (helper_extra_request_args (style_is route "upload") download_to_file)
      (helper_extra_return_arg (style_is route "download"))
      (helper_footer (style_is route "download") download_to_file) (S i)) as HP.
    by rewrite Hdoc in HP.
  - unfold method_statements, materialized, request_call.
    rewrite <-!app_assoc. simpl. reflexivity.
  - done.
  - by destruct (arg_data_type route).
Qed.

(** ** The variants of a route *)

Lemma style_exclusive (route : Route) :
  style_is route "download" = true → style_is route "upload" = false.
Proof.
  unfold style_is. intros H%bool_decide_eq_true.
  apply bool_decide_eq_false. by rewrite H.
Qed.

Lemma route_single (namespace : Namespace) (route : Route) (i : nat) :
  style_is route "download" = false →
  _generate_route namespace route i = _generate_route_helper namespace route false i.
Proof.
  intros Hstyle. unfold _generate_route. rewrite bind_run, Hstyle.
  destruct (_generate_route_helper namespace route false i) as [o [[]|e]];
    [|done].
  unfold output, outcome. simpl. by rewrite app_nil_r.
Qed.

Lemma route_run (namespace : Namespace) (route : Route) (i : nat) out :
  _generate_route namespace route i = (out, Ok ()) →
  ∃ plain, _generate_route_helper namespace route false i = (plain, Ok ()) ∧
    if style_is route "download" then
      ∃ file, _generate_route_helper namespace route true i = (file, Ok ()) ∧
              out = plain ++ file
    else out = plain.
Proof.
  destruct (style_is route "download") eqn:Hstyle.
  - unfold _generate_route. rewrite Hstyle.
    intros (plain & [] & file & Hplain & Hfile & ->)%bind_ok_inv.
    exists plain. split; [done |]. by exists file.
  - rewrite route_single by done. intros H. by exists out.
Qed.

(** ** The docstrings of the two variants of a download route *)

Lemma docstring_fields (arg_data_type : DataType) (i : nat) o fields :
  (if is_void_type arg_data_type then mret []
   else lift (get_fields arg_data_type)) i = (o, Ok fields) →
  o = [] ∧ fields = documentable_fields arg_data_type.
Proof. destruct arg_data_type; simpl; by intros [= <- <-]. Qed.

(** The docstring of the file variant is that of the plain variant with the
    note on [download_path] put in front of the parameters and without the
    closing paragraph on the response. *)
Lemma download_docstrings namespace arg_data_type result_data_type
    error_data_type overview i doc_plain doc_file :
  _generate_docstring_for_func namespace arg_data_type result_data_type
    error_data_type (Some overview) None
    (Some ":class:`requests.models.Response`")
    (Some DOCSTRING_CLOSE_RESPONSE) i = (doc_plain, Ok ()) →
  _generate_docstring_for_func namespace arg_data_type result_data_type
    error_data_type (Some overview)
    (Some [("download_path", Some "str", "Path on local machine to save file.")])
    (Some ":class:`requests.models.Response`") None i = (doc_file, Ok ()) →
  (doc_plain = [] ∧ doc_file = []) ∨
  ∃ section tail,
    let head :=
      Emit i triple_quote ::
      (if truthy overview
       then [EmitWrapped i overview EmptyString; Emit i EmptyString] else []) in
    doc_plain =
      head ++
      (if nonempty (documentable_fields arg_data_type) then section else []) ++
      tail ++
      [Emit i EmptyString;
       EmitWrapped i DOCSTRING_CLOSE_RESPONSE EmptyString;
       Emit i triple_quote] ∧
    doc_file =
      head ++
      EmitWrapped i
        ":param str download_path: Path on local machine to save file."
        "    " ::
      section ++ tail ++ [Emit i triple_quote].
Proof.
  unfold _generate_docstring_for_func. intros Hp Hf.
  apply bind_ok_inv in Hp as (o1 & fields & o2 & Hfs & Hp & ->).
  apply bind_ok_inv in Hf as (o1' & fields' & o2' & Hfs' & Hf & ->).
  apply docstring_fields in Hfs as [-> ->].
  apply docstring_fields in Hfs' as [-> ->].
  cbn [truthy_opt app] in *.
  destruct (negb (nonempty (documentable_fields arg_data_type)) &&
            negb (truthy overview)) eqn:Hskip.
  { left. by injection Hp as <-; injection Hf as <-. }
  right.
  apply bind_ok_inv in Hp as (oq & [] & o3 & [= <-] & Hp & ->).
  apply bind_ok_inv in Hp as (body & [] & o4 & Hbody & [= <-] & ->).
  apply bind_ok_inv in Hf as (oq' & [] & o3' & [= <-] & Hf & ->).
  apply bind_ok_inv in Hf as (body' & [] & o4' & Hbody' & [= <-] & ->).
  unfold docstring_body in Hbody, Hbody'.
  apply bind_ok_inv in Hbody as (oA & [] & r1 & HA & Hbody & ->).
  apply bind_ok_inv in Hbody as (oB & [] & r2 & HB & Hbody & ->).
  apply bind_ok_inv in Hbody as (oC & [] & r3 & HC & Hbody & ->).
  apply bind_ok_inv in Hbody as (oD & [] & r4 & HD & Hbody & ->).
  apply bind_ok_inv in Hbody as (oE & [] & oF & HE & HF & ->).
  apply bind_ok_inv in Hbody' as (oA' & [] & r1' & HA' & Hbody' & ->).
  apply bind_ok_inv in Hbody' as (oB' & [] & r2' & HB' & Hbody' & ->).
  apply bind_ok_inv in Hbody' as (oC' & [] & r3' & HC' & Hbody' & ->).
  apply bind_ok_inv in Hbody' as (oD' & [] & r4' & HD' & Hbody' & ->).
  apply bind_ok_inv in Hbody' as (oE' & [] & oF' & HE' & HF' & ->).
  rewrite HA in HA'. injection HA' as <-.
  rewrite HD in HD'. injection HD' as <-.
  rewrite HE in HE'. injection HE' as <-.
  change (truthy_opt (Some DOCSTRING_CLOSE_RESPONSE)) with true in HF.
  cbn [when default] in HF. injection HF as <-.
  cbn [truthy_opt when] in HF'. injection HF' as <-.
  cbn [truthy_opt truthy_list nonempty orb negb andb when default] in *.
  rewrite andb_false_r in HC'. cbn [when] in HC'. injection HC' as <-.
  apply bind_ok_inv in HB' as (ob1 & [] & rb & Hb1 & HB' & ->).
  apply bind_ok_inv in HB' as (ob2 & [] & section & Hb2 & HS & ->).
  injection Hb2 as <-.
  exists section, (oD ++ oE).
  destruct (nonempty (documentable_fields arg_data_type)) eqn:Hne;
    cbn [when negb andb] in *.
  - apply bind_ok_inv in HB as (ob1' & [] & rb' & Hb1' & HB & ->).
    apply bind_ok_inv in HB as (ob2' & [] & section' & Hb2' & HS' & ->).
    injection Hb2' as <-. rewrite HS in HS'. injection HS' as <-.
    rewrite Hb1 in Hb1'. injection Hb1' as <-.
    rewrite andb_false_r in HC. injection HC as <-.
    destruct (truthy overview); injection HA as <-; injection Hb1 as <-;
      cbn [app]; rewrite ?app_nil_r, <-?app_assoc; done.
  - injection HB as <-. rewrite andb_true_r in HC.
    destruct (truthy overview); [|done].
    injection HA as <-; injection Hb1 as <-; injection HC as <-.
    cbn [app]; rewrite ?app_nil_r, <-?app_assoc; done.
Qed.

(** C3, as the code has it.  A route whose style is [download] gets two
    methods and every other route one.  The file variant has the name of
    the plain one with [_to_file] appended, [download_path] as its first
    parameter after the receiver, and the file-save call after the request;
    both have the same deprecation warning, request argument and request
    invocation.  They differ besides in what they return and in their
    docstring: where one is written, that of the file variant has the note
    on [download_path] in front of the parameters, and that of the plain
    variant ends with the paragraph on closing the response. *)
Theorem download_variants (namespace : Namespace) (route : Route) (i : nat)
    (out : list Emission) :
  _generate_route namespace route i = (out, Ok ()) →
  ∃ params overview doc_plain,
    arg_params (arg_data_type route) params ∧
    process_doc (route_doc route) _docf = Ok overview ∧
    _generate_docstring_for_func namespace (arg_data_type route)
      (result_data_type route) (error_data_type route) (Some overview)
      (if style_is route "upload"
       then Some [("f", None, "A string or file-like obj of data.")] else None)
      (if style_is route "download"
       then Some ":class:`requests.models.Response`" else None)
      (if style_is route "download"
       then Some DOCSTRING_CLOSE_RESPONSE else None) (S i)
    = (doc_plain, Ok ()) ∧
    let common :=
      deprecation_warning route (S i) ++
      materialized (arg_data_type route) (S i) ++
      [request_call namespace route (binary_body_of route) (S i)] in
    let plain :=
      MultilineList i
        (("self" :: (if style_is route "upload" then ["f"] else [])) ++ params)
        (method_def namespace route None) ":" ("(", ")") true ::
      doc_plain ++ common ++
      [return_statement (result_data_type route) false (S i);
       Emit i EmptyString] in
    if style_is route "download" then
      ∃ doc_file,
        _generate_docstring_for_func namespace (arg_data_type route)
          (result_data_type route) (error_data_type route) (Some overview)
          (Some [("download_path", Some "str",
                  "Path on local machine to save file.")])
          (Some ":class:`requests.models.Response`") None (S i)
        = (doc_file, Ok ()) ∧
        out =
          plain ++
          MultilineList i ("self" :: "download_path" :: params)
            (method_def namespace route (Some "_to_file")) ":" ("(", ")") true ::
          doc_file ++ common ++
          [save_call (S i);
           return_statement (result_data_type route) true (S i);
           Emit i EmptyString] ∧
        length (declarations out) = 2 ∧
        ((doc_plain = [] ∧ doc_file = []) ∨
         ∃ section tail,
           let head :=
             Emit (S i) triple_quote ::
             (if truthy overview
              then [EmitWrapped (S i) overview EmptyString;
                    Emit (S i) EmptyString]
              else []) in
           doc_plain =
             head ++
             (if nonempty (documentable_fields (arg_data_type route))
              then section else []) ++
             tail ++
             [Emit (S i) EmptyString;
              EmitWrapped (S i) DOCSTRING_CLOSE_RESPONSE EmptyString;
              Emit (S i) triple_quote] ∧
           doc_file =
             head ++
             EmitWrapped (S i)
               ":param str download_path: Path on local machine to save file."
               "    " ::
             section ++ tail ++ [Emit (S i) triple_quote])
    else out = plain ∧ length (declarations out) = 1.
Proof.
  intros H. apply route_run in H as (plain & Hplain & H).
  destruct (helper_filtered _ _ _ _ _ Hplain) as (params1 & Hparams1 & Hdecl1 & _).
  apply helper_run in Hplain
    as (params & overview & doc_plain & _ & Hparams & Hov & Hdoc & Hplain).
  exists params, overview, doc_plain. do 2 (split; [done |]).
  split; [exact Hdoc |].
  assert (plain =
    MultilineList i
      (("self" :: (if style_is route "upload" then ["f"] else [])) ++ params)
      (method_def namespace route None) ":" ("(", ")") true ::
    doc_plain ++
    (deprecation_warning route (S i) ++
     materialized (arg_data_type route) (S i) ++
     [request_call namespace route (binary_body_of route) (S i)]) ++
    [return_statement (result_data_type route) false (S i); Emit i EmptyString])
    as Hplain'.
  { rewrite Hplain. unfold declaration, signature_prefix, method_statements.
    simpl. by rewrite <-!app_assoc. }
  cbv zeta. destruct (style_is route "download") eqn:Hstyle.
  - destruct H as (file & Hfile & ->).
    destruct (helper_filtered _ _ _ _ _ Hfile) as (params2 & Hparams2 & Hdecl2 & _).
    apply helper_run in Hfile
      as (params' & overview' & doc_file & _ & Hparams' & Hov' & Hdoc' & Hfile).
    assert (params' = params) as -> by by eapply arg_params_functional.
    assert (overview' = overview) as -> by congruence.
    rewrite Hstyle, (style_exclusive _ Hstyle) in Hdoc'.
    rewrite (style_exclusive _ Hstyle) in Hdoc.
    exists doc_file. split; [exact Hdoc' |]. split; [|split].
    + rewrite <-Hplain'. f_equal. rewrite Hfile.
      unfold declaration, signature_prefix, method_statements.
      rewrite (style_exclusive _ Hstyle). simpl. by rewrite <-!app_assoc.
    + unfold declarations in *. by rewrite List.filter_app, Hdecl1, Hdecl2.
    + exact (download_docstrings _ _ _ _ _ _ _ _ Hdoc Hdoc').
  - subst out. split; [done |]. by rewrite Hdecl1.
Qed.

(** C4, as the code has it.  A route whose style is [upload] gets one
    method; its prototype has the binary-body parameter [f] right after
    the receiver, before the parameters of the argument, and its request
    invocation passes [f] as fourth argument.  The request invocations of a
    route of any other style pass [None] there. *)
Theorem upload_binary_body (namespace : Namespace) (route : Route) (i : nat)
    (out : list Emission) :
  _generate_route namespace route i = (out, Ok ()) →
  (style_is route "upload" = true →
     ∃ params, arg_params (arg_data_type route) params ∧
       declarations out =
         [MultilineList i ("self" :: "f" :: params)
            (method_def namespace route None) ":" ("(", ")") true] ∧
       request_calls out =
         [MultilineList (S i)
            [ns_name namespace +:+ "." +:+ fmt_var (route_name route);
             "'" +:+ ns_name namespace +:+ "'"; "arg"; "f"]
            "r = self.request" EmptyString ("(", ")") false]) ∧
  (style_is route "upload" = false →
     request_calls out ≠ [] ∧
     Forall (λ e, e =
         MultilineList (S i)
           [ns_name namespace +:+ "." +:+ fmt_var (route_name route);
            "'" +:+ ns_name namespace +:+ "'"; "arg"; "None"]
           "r = self.request" EmptyString ("(", ")") false)
       (request_calls out)).
Proof.
  intros H. apply route_run in H as (plain & Hplain & H).
  destruct (helper_filtered _ _ _ _ _ Hplain) as (params & Hparams & Hdecl & Hreq).
  split.
  - intros Hup. destruct (style_is route "download") eqn:Hstyle.
    { apply style_exclusive in Hstyle. congruence. }
    subst out. exists params. split; [done |].
    rewrite Hdecl, Hreq. unfold declaration, signature_prefix, request_call,
      binary_body_of. by rewrite Hup.
  - intros Hup. destruct (style_is route "download") eqn:Hstyle.
    + destruct H as (file & Hfile & ->).
      destruct (helper_filtered _ _ _ _ _ Hfile) as (params' & _ & _ & Hreq').
      unfold request_calls in *. rewrite List.filter_app, Hreq, Hreq'.
      unfold request_call, binary_body_of. rewrite Hup.
      split; [done | by repeat constructor].
    + subst out. rewrite Hreq. unfold request_call, binary_body_of.
      rewrite Hup. split; [done | by repeat constructor].
Qed.

(** ** The docstring of a route *)




(** ** The deprecation annotator *)

Lemma import_warnings_in_routes_run (rs : list Route) (i : nat) :
  import_warnings_in_routes rs i =
  ((if existsb is_deprecated rs then [Emit i "import warnings"] else []),
   Ok (existsb is_deprecated rs)).
Proof.
  induction rs as [|r rs IH]; simpl; [done |].
  unfold is_deprecated at 1 3. by destruct (deprecated r).
Qed.

Lemma import_warnings_if_deprecated_run (nss : list Namespace) (i : nat) :
  import_warnings_if_deprecated nss i =
  ((if existsb (λ ns, existsb is_deprecated (routes ns)) nss
    then [Emit i "import warnings"] else []),
   Ok (existsb (λ ns, existsb is_deprecated (routes ns)) nss)).
Proof.
  induction nss as [|ns nss IH]; simpl; [done |].
  rewrite bind_run, import_warnings_in_routes_run.
  destruct (existsb is_deprecated (routes ns)); simpl; [done |].
  rewrite IH. unfold output, outcome. simpl.
  by destruct (existsb _ nss).
Qed.

Lemma for_each_emit {A} (l : list A) (f : A → string) (i : nat) :
  for_each l (λ x, emit (f x)) i = ((λ x, Emit i (f x)) <$> l, Ok ()).
Proof.
  induction l as [|x l IH]; simpl; [done |].
  by rewrite bind_run, IH.
Qed.

Lemma imports_no_import_warnings (nss : list Namespace) :
  import_lines (output (_generate_imports nss 0)) = [] ∧
  outcome (_generate_imports nss 0) = Ok ().
Proof.
  unfold _generate_imports. rewrite !bind_run. simpl.
  unfold indent. rewrite for_each_emit. unfold output, outcome. simpl.
  split; [|done]. unfold import_lines. rewrite List.filter_app. simpl.
  rewrite app_nil_r. induction (ns_name <$> _) as [|n l IH]; [done | apply IH].
Qed.

Lemma indented_no_import_warnings (out : list Emission) :
  Forall (indented 1) out → import_lines out = [].
Proof.
  induction 1 as [|e out He _ IH]; simpl; [done |].
  rewrite IH. destruct e as [|[|k]| |]; simpl in *; try done; lia.
Qed.

Lemma output_bind {A B} (m : Gen A) (f : A → Gen B) (i : nat) a :
  outcome (m i) = Ok a → output ((m ≫= f) i) = output (m i) ++ output (f a i).
Proof.
  rewrite bind_run. destruct (m i) as [o [a'|e]]; unfold output, outcome; simpl;
    [|done].
  by intros [= ->].
Qed.

(** C5. The module imports [warnings] once when some route of some
    namespace is deprecated, and not at all otherwise.  The method of a
    deprecated route has the warning right after its docstring, before the
    request argument is materialized: [<route name> is deprecated.], with
    [ Use <replacement name>.] added when a replacement is named. *)
Theorem deprecation_annotated :
  (∀ api,
     import_lines (output (generate api).2)
     = (if any_deprecated api then [Emit 0 "import warnings"] else []) ∧
     ∃ rest,
       output (generate api).2 =
       EmitRaw base ::
       (if any_deprecated api then [Emit 0 "import warnings"] else []) ++
       Emit 0 EmptyString :: rest ∧
       import_lines rest = []) ∧
  (∀ namespace route d download_to_file i out,
     deprecated route = Some d →
     _generate_route_helper namespace route download_to_file i = (out, Ok ()) →
     ∃ prototype doc_out rest,
       is_declaration prototype = true ∧
       (doc_out = [] ∨
        ∃ middle, doc_out =
          Emit (S i) triple_quote :: middle ++ [Emit (S i) triple_quote]) ∧
       out =
         prototype :: doc_out ++
         MultilineList (S i)
           ["'" +:+
            (route_name route +:+ " is deprecated." +:+
             match by_route d with
             | Some replacement => " Use " +:+ replacement +:+ "."
             | None => EmptyString
             end) +:+ "'";
            "DeprecationWarning"]
           "warnings.warn" EmptyString ("(", ")") false ::
         materialized (arg_data_type route) (S i) ++
         request_call namespace route (binary_body_of route) (S i) :: rest).
Proof.
  split.
  - intros api. unfold generate, generate_body, any_deprecated. simpl.
    destruct (imports_no_import_warnings (namespaces_values api)) as [Himp Hok].
    pose proof (import_warnings_if_deprecated_run (namespaces_values api) 0) as Hscan.
    rewrite (output_bind _ _ _ ()) by done.
    rewrite (output_bind _ _ _ _ (f_equal outcome Hscan)).
    rewrite (output_bind _ _ _ ()) by done.
    rewrite (output_bind _ _ _ () Hok).
    do 3 (rewrite (output_bind _ _ _ ()) by done).
    rewrite Hscan. unfold output at 1 2 3. cbn [fst app].
    lazymatch goal with
    | |- context [output (indent ?body 0)] =>
        assert (import_lines (output (indent body 0)) = []) as Hclass
    end.
    { apply indented_no_import_warnings.
      lazymatch goal with
      | |- Forall _ (output (indent ?body 0)) =>
          cut (emits_only indented body); [intros H; exact (H 1) |]
      end.
      repeat first
        [ apply route_methods_indented
        | emits_only_step
        | apply emits_only_indent; [apply indented_mono |] ];
      simpl; lia. }
    unfold import_lines in *. split.
    + cbn [List.filter is_import_warnings].
      rewrite !List.filter_app, Himp.
      cbn [List.filter is_import_warnings String.eqb Ascii.eqb Bool.eqb app].
      rewrite Hclass. by destruct (existsb _ _).
    + eexists. split; [reflexivity |].
      rewrite !List.filter_app, Himp.
      cbn [List.filter is_import_warnings String.eqb Ascii.eqb Bool.eqb app].
      by rewrite Hclass.
  - intros namespace route d dtf i out Hd H.
    pose proof H as H'. apply helper_run in H
      as (params & overview & doc_out & _ & _ & _ & Hdoc & ->).
    exists (declaration namespace route (style_is route "upload")
              (variant_suffix dtf) (variant_extra_args dtf) params i), doc_out.
    eexists. split; [done |]. split.
    { apply docstring_run_ok in Hdoc. destruct (_ && _); [by left |].
      destruct Hdoc as (middle & -> & _). right. by exists middle. }
    unfold method_statements, deprecation_warning, deprecation_message.
    rewrite Hd. cbn [app]. rewrite <-!app_assoc. cbn [app]. reflexivity.
Qed.

(** * Further properties of the generator *)

(** ** Loops *)

Lemma ret_bind {A B} (a : A) (f : A → Gen B) (i : nat) :
  (mret a ≫= f) i = f a i.
Proof. rewrite bind_run. simpl. unfold output, outcome. by destruct (f a i). Qed.

Lemma for_each_returns {A} (l : list A) (body : A → Gen unit) (i : nat) :
  outcome (for_each l body i) = Ok () ↔
  ∀ x, x ∈ l → outcome (body x i) = Ok ().
Proof.
  induction l as [|x l IH]; simpl.
  - split; [by intros _ x ?%elem_of_nil | done].
  - rewrite bind_run. destruct (body x i) as [o [[]|e]] eqn:Hx.
    + unfold outcome in *. simpl. rewrite IH. split.
      * intros H y [->|Hy]%elem_of_cons; [by rewrite Hx | by apply H].
      * intros H y Hy. apply H. by right.
    + split; [done |]. intros H. specialize (H x ltac:(apply elem_of_cons; by left)).
      by rewrite Hx in H.
Qed.

(** ** The import list *)

Lemma append_length (a b : string) :
  String.length (a +:+ b) = String.length a + String.length b.
Proof.
  induction a as [|c a IH]; [done |]. rewrite append_cons. simpl.
  by rewrite IH.
Qed.

Lemma append_inj_l (a b c : string) : a +:+ c = b +:+ c → a = b.
Proof.
  revert b. induction a as [|x a IH]; intros [|y b] H.
  - done.
  - apply (f_equal String.length) in H. rewrite !append_length in H.
    simpl in H. lia.
  - apply (f_equal String.length) in H. rewrite !append_length in H.
    simpl in H. lia.
  - rewrite !append_cons in H. injection H as -> H. f_equal. by apply IH.
Qed.

(** X1. [_generate_imports] always returns; it opens the import list, writes
    one line per namespace that has data types, in the order of the
    namespaces and one scope deeper, and closes the list.  A namespace
    without data types is never imported, whatever routes it has. *)
Theorem imports_exactly_typed_namespaces (namespaces : list Namespace) (i : nat) :
  ∃ lines,
    _generate_imports namespaces i =
      (Emit i "from . import (" :: lines ++ [Emit i ")"], Ok ()) ∧
    (∀ name, Emit (S i) (name +:+ ",") ∈ lines ↔
       ∃ ns, ns ∈ namespaces ∧ ns_name ns = name ∧ data_types ns ≠ []) ∧
    (∀ namespace, data_types namespace = [] →
       _generate_imports (namespace :: namespaces) i
       = _generate_imports namespaces i) ∧
    (∀ namespace, data_types namespace ≠ [] →
       _generate_imports (namespace :: namespaces) i =
         (Emit i "from . import (" ::
          Emit (S i) (ns_name namespace +:+ ",") :: lines ++ [Emit i ")"],
          Ok ())).
Proof.
  assert (∀ nss, _generate_imports nss i =
    (Emit i "from . import (" ::
     ((λ n, Emit (S i) (n +:+ ",")) <$>
      (ns_name <$> filter (λ ns, nonempty (data_types ns) = true) nss)) ++
     [Emit i ")"], Ok ())) as Hrun.
  { intros nss. unfold _generate_imports. rewrite !bind_run. simpl.
    unfold indent. rewrite for_each_emit. unfold output, outcome. simpl.
    by rewrite <-list_fmap_compose. }
  eexists. split; [apply Hrun |]. split; [|split].
  - intros name. rewrite <-list_fmap_compose, list_elem_of_fmap. split.
    + intros (ns & [= Hname] & [Hns Hin]%list_elem_of_filter).
      apply append_inj_l in Hname. exists ns. split; [done |].
      split; [done |]. by destruct (data_types ns).
    + intros (ns & Hin & <- & Hns). exists ns. split; [done |].
      apply list_elem_of_filter. split; [|done]. by destruct (data_types ns).
  - intros namespace Hnone. rewrite !Hrun. rewrite filter_cons.
    by rewrite decide_False by by rewrite Hnone.
  - intros namespace Hsome. rewrite Hrun. rewrite filter_cons.
    by rewrite decide_True by by destruct (data_types namespace).
Qed.

(** ** Namespaces without routes *)

(** X2. A namespace without routes has no part in the methods of the class:
    no banner and no method is written for it, so the output and the
    outcome are those of the namespaces that have routes. *)
Theorem routeless_namespaces_are_silent (namespaces : list Namespace) (i : nat) :
  _generate_route_methods namespaces i
  = _generate_route_methods
      (filter (λ ns, nonempty (routes ns) = true) namespaces) i.
Proof.
  unfold _generate_route_methods.
  induction namespaces as [|ns nss IH]; [done |].
  rewrite filter_cons. destruct (routes ns) as [|r rs] eqn:Hroutes.
  - rewrite decide_False by done. cbn [for_each]. rewrite Hroutes.
    cbn [nonempty when]. by rewrite ret_bind.
  - rewrite decide_True by done. cbn [for_each]. rewrite Hroutes.
    rewrite !(bind_run (when _ _)). by rewrite IH.
Qed.

(** ** Failures of the prototype *)

Lemma decl_field_arg_raise (f : Field) :
  decl_field_arg f =
  if tag_default_without_namespace f then Raise (AttributeError "name")
  else match decl_field_arg f with Ok s => Ok s | Raise e => Raise e end.
Proof.
  destruct f as [name t doc [[u tag|r]|]];
    unfold decl_field_arg, tag_default_without_namespace; simpl;
    by destruct t.
Qed.

Lemma decl_field_arg_returns (f : Field) :
  tag_default_without_namespace f = false → ∃ s, decl_field_arg f = Ok s.
Proof.
  destruct f as [name t doc [[u tag|r]|]];
    unfold decl_field_arg, tag_default_without_namespace; simpl;
    destruct t; simpl; try done; eauto.
Qed.

Lemma decl_struct_args_stray (fields : list Field) (acc : list string) :
  Exists (λ f, tag_default_without_namespace f = true) fields →
  decl_struct_args fields acc = Raise (AttributeError "name").
Proof.
  revert acc. induction fields as [|f fields IH]; intros acc H; cbn [decl_struct_args].
  - by apply Exists_nil in H.
  - rewrite decl_field_arg_raise.
    destruct (tag_default_without_namespace f) eqn:Hf; [done |].
    destruct (decl_field_arg_returns f Hf) as [s ->].
    apply IH. apply Exists_cons in H as [H|H]; [congruence | done].
Qed.

(** X3. A tag reference as the default of a field that is not nullable and
    whose type is not user-defined stops the method before anything is
    written: on a struct that has such a field in [all_fields],
    [_generate_route_method_decl] raises on the missing [name] of [None]
    before it calls the emission utility, whatever the other fields are,
    and so do [_generate_route_helper] and [_generate_route] for a route
    that takes the struct. *)
Theorem stray_tag_default_stops_the_method (namespace : Namespace)
    (route : Route) (name ns : string) (doc : option string)
    (fields all_fields : list Field) (i : nat) :
  Exists (λ f, tag_default_without_namespace f = true) all_fields →
  (∀ request_binary_body method_name_suffix extra_args,
     _generate_route_method_decl namespace route
       (Struct name ns doc fields all_fields) request_binary_body
       method_name_suffix extra_args i
     = ([], Raise (AttributeError "name"))) ∧
  (arg_data_type route = Struct name ns doc fields all_fields →
   _generate_route_helper namespace route false i
   = ([], Raise (AttributeError "name")) ∧
   _generate_route namespace route i = ([], Raise (AttributeError "name"))).
Proof.
  intros Hstray.
  assert (∀ request_binary_body method_name_suffix extra_args,
     _generate_route_method_decl namespace route
       (Struct name ns doc fields all_fields) request_binary_body
       method_name_suffix extra_args i
     = ([], Raise (AttributeError "name"))) as Hdecl.
  { intros request_binary_body method_name_suffix extra_args.
    unfold _generate_route_method_decl.
    rewrite decl_prefix, decl_method_def, !bind_run. simpl.
    by rewrite (decl_struct_args_stray _ _ Hstray). }
  split; [exact Hdecl |]. intros Harg.
  assert (_generate_route_helper namespace route false i
          = ([], Raise (AttributeError "name"))) as Hhelper.
  { unfold _generate_route_helper. rewrite bind_run, Harg.
    by rewrite Hdecl. }
  split; [exact Hhelper |].
  unfold _generate_route. by rewrite bind_run, Hhelper.
Qed.

(** ** Links in documentation *)

Lemma rsplit_space_some (s anchor url : string) :
  rsplit_space s = Some (anchor, url) →
  s = anchor +:+ " " +:+ url ∧ contains_char " " url = false.
Proof.
  revert anchor. induction s as [|c s IH]; intros anchor; cbn [rsplit_space];
    [done |].
  destruct (rsplit_space s) as [[a u]|] eqn:Hs.
  - intros [= <- <-]. destruct (IH a eq_refl) as [-> Hu]. by rewrite append_cons.
  - destruct (Ascii.eqb c " ") eqn:Hc; [|done].
    apply Ascii.eqb_eq in Hc as ->. intros [= <- <-]. split; [done |].
    clear IH. induction s as [|d s IH]; [done |].
    cbn [rsplit_space contains_char] in *.
    destruct (rsplit_space s) as [[a u]|]; [done |].
    destruct (Ascii.eqb d " "); [done |]. by apply IH.
Qed.

(** X4. The [link] tag is the only one of the five that can fail: it is
    translated exactly when its payload holds a space, from the text before
    the last space and the text after it, and it raises the unpacking error
    on a payload without space.  [type], [route], [val] and [field] are
    translated whatever the payload. *)
Theorem docf_link_needs_a_space :
  (∀ val r,
     _docf "link" val = Ok r ↔
     ∃ anchor url, val = anchor +:+ " " +:+ url ∧
       contains_char " " url = false ∧
       r = "`" +:+ anchor +:+ " <" +:+ url +:+ ">`_") ∧
  (∀ val, contains_char " " val = false ↔
     _docf "link" val = Raise (ValueError "not enough values to unpack")) ∧
  (∀ tag val, tag ∈ ["type"; "route"; "val"; "field"] →
     ∃ r, _docf tag val = Ok r).
Proof.
  split; [|split].
  - intros val r. unfold _docf. simpl String.eqb. split.
    + destruct (rsplit_space val) as [[a u]|] eqn:Hsplit; [|done].
      intros [= <-]. apply rsplit_space_some in Hsplit as [-> Hu]. by exists a, u.
    + intros (anchor & url & -> & Hurl & ->).
      by rewrite (rsplit_space_last _ _ Hurl).
  - intros val. unfold _docf. simpl String.eqb. split.
    + intros Hval. by rewrite (rsplit_space_none _ Hval).
    + destruct (rsplit_space val) as [[a u]|] eqn:Hsplit; [done |]. intros _.
      clear -Hsplit. induction val as [|c s IH]; [done |].
      cbn [rsplit_space contains_char] in *.
      destruct (rsplit_space s) as [[a u]|]; [done |].
      destruct (Ascii.eqb c " "); [done |]. by apply IH.
  - intros tag val Htag. rewrite !elem_of_cons, elem_of_nil in Htag.
    destruct Htag as [->|[->|[->|[->|[]]]]]; unfold _docf; simpl String.eqb;
      eauto.
    destruct (String.eqb val "null"); [eauto |].
    destruct (_ || _); eauto.
Qed.

(** ** The module *)

(** The run of [generate]: the header, then the methods of the routes. *)
Lemma generate_body_run (api : Api) :
  generate_body api 0 =
  (module_header api ++
   output (_generate_route_methods (namespaces_values api) 1),
   outcome (_generate_route_methods (namespaces_values api) 1)).
Proof.
  unfold generate_body, module_header, any_deprecated.
  rewrite bind_run. cbn [emit_raw].
  rewrite bind_run, import_warnings_if_deprecated_run.
  rewrite bind_run. cbn [emit].
  destruct (imports_no_import_warnings (namespaces_values api)) as [_ Hok].
  rewrite bind_run.
  destruct (_generate_imports (namespaces_values api) 0) as [oi [[]|e]] eqn:Hi;
    [|done].
  rewrite !bind_run. cbn [emit]. unfold indent. rewrite !bind_run. cbn [emit].
  unfold output, outcome. cbn [fst snd app].
  destruct (_generate_route_methods (namespaces_values api) 1) as [om rm].
  cbn [fst snd]. f_equal. cbn [app]. f_equal.
  rewrite <-app_assoc. cbn [app]. f_equal. f_equal.
  by rewrite <-app_assoc.
Qed.

Lemma route_methods_returns (nss : list Namespace) (i : nat) :
  outcome (_generate_route_methods nss i) = Ok () ↔
  ∀ ns r, ns ∈ nss → r ∈ routes ns → outcome (_generate_route ns r i) = Ok ().
Proof.
  unfold _generate_route_methods. rewrite for_each_returns. split.
  - intros H ns r Hns Hr. specialize (H ns Hns).
    destruct (routes ns) as [|r0 rs] eqn:Hroutes; [by apply elem_of_nil in Hr |].
    cbn [nonempty when] in H. rewrite !bind_run in H. cbn [emit] in H.
    unfold output, outcome in H. cbn [fst snd] in H.
    revert H. rewrite <-Hroutes in *.
    destruct (for_each (routes ns) _ i) as [o ro] eqn:Hloop. cbn [fst snd].
    intros ->. apply (f_equal outcome) in Hloop. unfold outcome at 2 in Hloop.
    cbn [snd] in Hloop. by eapply for_each_returns in Hloop.
  - intros H ns Hns. specialize (H ns).
    destruct (routes ns) as [|r0 rs] eqn:Hroutes; [done |].
    cbn [nonempty when]. rewrite !bind_run. cbn [emit].
    unfold output, outcome. cbn [fst snd].
    rewrite <-Hroutes in *.
    assert (outcome (for_each (routes ns)
              (λ route, _generate_route ns route) i) = Ok ()) as Hloop.
    { apply for_each_returns. intros r Hr. by apply H. }
    destruct (for_each (routes ns) _ i) as [o ro]. by cbn [fst snd].
Qed.

(** X5. The output of [generate] is the header followed by the methods of
    the routes, and the header is written whatever the routes are; the pass
    returns exactly when the method of every route of every namespace is
    written, and otherwise ends as the methods do. *)
Theorem generate_returns_iff_routes_do (api : Api) :
  output (generate api).2 =
    module_header api ++
    output (_generate_route_methods (namespaces_values api) 1) ∧
  outcome (generate api).2
  = outcome (_generate_route_methods (namespaces_values api) 1) ∧
  (outcome (generate api).2 = Ok () ↔
   ∀ ns r, ns ∈ namespaces_values api → r ∈ routes ns →
     outcome (_generate_route ns r 1) = Ok ()).
Proof.
  unfold generate. cbn [fst snd]. rewrite generate_body_run.
  unfold output at 1, outcome at 1 3. cbn [fst snd].
  split; [done |]. split; [done |].
  apply route_methods_returns.
Qed.

(** ** The methods of the class *)

Lemma route_counts (namespace : Namespace) (route : Route) (i : nat) out :
  _generate_route namespace route i = (out, Ok ()) →
  length (declarations out) = variants_of route ∧
  length (request_calls out) = variants_of route.
Proof.
  intros H. apply route_run in H as (plain & Hplain & H).
  destruct (helper_filtered _ _ _ _ _ Hplain) as (params & _ & Hdecl & Hreq).
  unfold variants_of. destruct (style_is route "download").
  - destruct H as (file & Hfile & ->).
    destruct (helper_filtered _ _ _ _ _ Hfile) as (params' & _ & Hdecl' & Hreq').
    unfold declarations, request_calls in *.
    by rewrite !List.filter_app, Hdecl, Hdecl', Hreq, Hreq'.
  - subst out. by rewrite Hdecl, Hreq.
Qed.

(** X6. When the methods of the class are written, there is one prototype
    and one request invocation per method, and as many methods as the
    routes call for: two for each route whose style is [download] and one
    for each other route, over all namespaces.  The banners of the
    namespaces add none. *)
Theorem one_method_per_variant (namespaces : list Namespace) (i : nat)
    (out : list Emission) :
  _generate_route_methods namespaces i = (out, Ok ()) →
  length (declarations out) = methods_of namespaces ∧
  length (request_calls out) = methods_of namespaces.
Proof.
  unfold _generate_route_methods, methods_of. revert out.
  induction namespaces as [|ns nss IH]; intros out; cbn [for_each].
  - by intros [= <-].
  - intros (o & [] & out' & Hns & Hnss & ->)%bind_ok_inv.
    apply IH in Hnss as [IH1 IH2].
    assert (length (declarations o) = sum_list (variants_of <$> routes ns) ∧
            length (request_calls o) = sum_list (variants_of <$> routes ns))
      as [H1 H2].
    { destruct (routes ns) as [|r0 rs] eqn:Hroutes;
        [by injection Hns as <- |].
      cbn [nonempty when] in Hns. rewrite <-Hroutes in *. clear Hroutes.
      apply bind_ok_inv in Hns as (o1 & [] & o2 & [= <-] & Hns & ->).
      apply bind_ok_inv in Hns as (o3 & [] & o4 & [= <-] & Hns & ->).
      apply bind_ok_inv in Hns as (o5 & [] & o6 & [= <-] & Hns & ->).
      cbn [app declarations request_calls List.filter is_declaration
           is_request_call].
      clear -Hns. revert o6 Hns.
      induction (routes ns) as [|r rs IHr]; intros o6; cbn [for_each].
      - by intros [= <-].
      - intros (o & [] & o' & Hr & Hrs & ->)%bind_ok_inv.
        apply route_counts in Hr as [Hr1 Hr2]. apply IHr in Hrs as [Hs1 Hs2].
        unfold declarations, request_calls in *.
        rewrite !List.filter_app, !length_app, fmap_cons. simpl sum_list.
        lia. }
    unfold declarations, request_calls in *.
    rewrite !List.filter_app, !length_app, fmap_cons. simpl sum_list.
    lia.
Qed.

(** ** Warnings and their import *)

Ltac not_warn_tac :=
  repeat first [ emits_only_step | apply emits_only_indent; [done |] ];
  try reflexivity.

Lemma decl_no_warn namespace route arg_data_type request_binary_body
    method_name_suffix extra_args :
  emits_only (λ _ e, is_warn_call e = false)
    (_generate_route_method_decl namespace route arg_data_type
       request_binary_body method_name_suffix extra_args).
Proof. unfold _generate_route_method_decl. not_warn_tac. Qed.

Lemma docstring_no_warn namespace arg_data_type result_data_type
    error_data_type overview extra_request_args extra_return_arg footer :
  emits_only (λ _ e, is_warn_call e = false)
    (_generate_docstring_for_func namespace arg_data_type result_data_type
       error_data_type overview extra_request_args extra_return_arg footer).
Proof.
  unfold _generate_docstring_for_func, docstring_body, doc_error_section,
    doc_struct_field, doc_extra_request_arg.
  not_warn_tac.
Qed.

Lemma helper_no_warn namespace route download_to_file :
  deprecated route = None →
  emits_only (λ _ e, is_warn_call e = false)
    (_generate_route_helper namespace route download_to_file).
Proof.
  intros Hd.
  unfold _generate_route_helper, _maybe_generate_deprecation_warning,
    materialize_request_arg, emit_request_call, emit_return.
  rewrite Hd.
  repeat first
    [ apply decl_no_warn
    | apply docstring_no_warn
    | emits_only_step
    | apply emits_only_indent; [done |] ];
  reflexivity.
Qed.

Lemma emits_only_for_each_in {A} (P : nat → Emission → Prop) (l : list A)
    (body : A → Gen unit) :
  (∀ x, x ∈ l → emits_only P (body x)) → emits_only P (for_each l body).
Proof.
  induction l as [|x l IH]; intros Hbody; simpl.
  - apply emits_only_ret.
  - apply emits_only_bind.
    + apply Hbody, elem_of_cons. by left.
    + intros _. apply IH. intros y Hy. apply Hbody, elem_of_cons. by right.
Qed.

Lemma route_methods_no_warn (nss : list Namespace) :
  existsb (λ ns, existsb is_deprecated (routes ns)) nss = false →
  emits_only (λ _ e, is_warn_call e = false) (_generate_route_methods nss).
Proof.
  intros Hnone. unfold _generate_route_methods.
  apply emits_only_for_each_in. intros ns Hns.
  apply emits_only_when.
  do 3 (apply emits_only_bind; [by apply emits_only_emit | intros _]).
  apply emits_only_for_each_in. intros r Hr.
  assert (deprecated r = None) as Hd.
  { destruct (deprecated r) eqn:Hd; [|done].
    assert (existsb (λ ns, existsb is_deprecated (routes ns)) nss = true);
      [|congruence].
    apply existsb_exists. exists ns. split; [by apply list_elem_of_In |].
    apply existsb_exists. exists r. split; [by apply list_elem_of_In |].
    unfold is_deprecated. by rewrite Hd. }
  unfold _generate_route.
  apply emits_only_bind; [by apply helper_no_warn | intros _].
  apply emits_only_when. by apply helper_no_warn.
Qed.

(** X7. The module never calls [warnings.warn] without importing
    [warnings]: if the output of [generate] holds a deprecation warning,
    whether the pass returns or fails later, then [import warnings] is in
    it, once, at module level.  A route that is not deprecated gets no
    warning. *)
Theorem warning_implies_import :
  (∀ api,
     Exists (λ e, is_warn_call e = true) (output (generate api).2) →
     import_lines (output (generate api).2) = [Emit 0 "import warnings"]) ∧
  (∀ namespace route download_to_file i,
     deprecated route = None →
     Forall (λ e, is_warn_call e = false)
       (output (_generate_route_helper namespace route download_to_file i))).
Proof.
  split; [|intros ns r dtf i Hd; by apply helper_no_warn].
  intros api. unfold generate. cbn [snd]. rewrite generate_body_run.
  unfold output at 1 3. cbn [fst].
  intros Hwarn.
  assert (import_lines (module_header api) =
          if any_deprecated api then [Emit 0 "import warnings"] else [])
    as Hheader.
  { unfold module_header, import_lines.
    destruct (imports_no_import_warnings (namespaces_values api)) as [Himp _].
    unfold import_lines in Himp.
    cbn [List.filter is_import_warnings].
    rewrite List.filter_app.
    cbn [List.filter is_import_warnings String.eqb].
    rewrite List.filter_app, Himp.
    cbn [List.filter is_import_warnings String.eqb Ascii.eqb Bool.eqb app].
    rewrite app_nil_r. by destruct (any_deprecated api). }
  assert (import_lines
            (output (_generate_route_methods (namespaces_values api) 1)) = [])
    as Hmethods by (apply indented_no_import_warnings, route_methods_indented).
  unfold import_lines in *. rewrite List.filter_app, Hheader, Hmethods, app_nil_r.
  destruct (any_deprecated api) eqn:Hany; [done |].
  exfalso. apply Exists_app in Hwarn as [Hwarn|Hwarn].
  - unfold module_header in Hwarn. rewrite Hany in Hwarn.
    destruct (imports_no_import_warnings (namespaces_values api)) as [_ Hok].
    apply Exists_cons in Hwarn as [?|Hwarn]; [done |].
    apply Exists_cons in Hwarn as [?|Hwarn]; [done |].
    apply Exists_app in Hwarn as [Hwarn|Hwarn].
    + unfold _generate_imports in Hwarn.
      rewrite !bind_run in Hwarn. cbn [emit] in Hwarn. unfold indent in Hwarn.
      rewrite for_each_emit in Hwarn. unfold output, outcome in Hwarn.
      cbn [fst snd app] in Hwarn.
      apply Exists_cons in Hwarn as [?|Hwarn]; [done |].
      apply Exists_app in Hwarn as [Hwarn|Hwarn].
      * apply Exists_exists in Hwarn as (e & He & Hw).
        apply list_elem_of_fmap in He as (n & -> & _). done.
      * apply Exists_cons in Hwarn as [?|Hwarn]; [done |].
        by apply Exists_nil in Hwarn.
    + repeat (apply Exists_cons in Hwarn as [?|Hwarn]; [done |]).
      by apply Exists_nil in Hwarn.
  - pose proof (route_methods_no_warn (namespaces_values api) Hany 1) as Hno.
    apply Exists_exists in Hwarn as (e & He & Hw).
    rewrite Forall_forall in Hno. specialize (Hno e He). congruence.
Qed.

(** ** The layout of a method *)

(** X8. A method that is written has its prototype at the depth of the
    class body and everything else one scope deeper, none of it raw text;
    it ends with a return statement and a blank line.  The statement
    returns [None] for a Void result, the whole result [r] in the plain
    variant and its decoded part [r[0]] in the file variant, where the
    file-save call comes right before it. *)
Theorem method_layout (namespace : Namespace) (route : Route)
    (download_to_file : bool) (i : nat) (out : list Emission) :
  _generate_route_helper namespace route download_to_file i = (out, Ok ()) →
  ∃ items body,
    out =
      MultilineList i ("self" :: items)
        (method_def namespace route (variant_suffix download_to_file)) ":"
        ("(", ")") true ::
      body ++
      (if download_to_file
       then [Emit (S i) "self._save_body_to_file(download_path, r[1])"]
       else []) ++
      [Emit (S i)
         (if is_void_type (result_data_type route) then "return None"
          else if download_to_file then "return r[0]" else "return r");
       Emit i EmptyString] ∧
    Forall (indented (S i)) body.
Proof.
  intros H. apply helper_run in H
    as (params & overview & doc_out & _ & _ & _ & Hdoc & ->).
  eexists.
  exists (doc_out ++ deprecation_warning route (S i) ++
          materialized (arg_data_type route) (S i) ++
          [request_call namespace route (binary_body_of route) (S i)]).
  split.
  - unfold declaration, signature_prefix, method_statements, return_statement,
      save_call. cbn [app]. f_equal.
    rewrite <-!app_assoc. cbn [app]. by rewrite <-!app_assoc.
  - pose proof (docstring_indented namespace (arg_data_type route)
      (result_data_type route) (error_data_type route) (Some overview)
      (helper_extra_request_args (style_is route "upload") download_to_file)
      (helper_extra_return_arg (style_is route "download"))
      (helper_footer (style_is route "download") download_to_file) (S i)) as HP.
    rewrite Hdoc in HP. unfold output in HP. cbn [fst] in HP.
    rewrite !Forall_app. split; [done |].
    unfold deprecation_warning.
    destruct (deprecated route), (arg_data_type route); simpl;
      repeat split; repeat constructor; simpl; lia.
Qed.

(** ** The error type of a route *)

(** X9. The error data type of a route is read by the docstring alone.
    With no overview and no field to document there is no docstring and
    the method is written whatever the error type is; with an overview, an
    error type that is neither Void nor user-defined makes the method fail
    on its missing [fields]. *)
Theorem error_type_read_only_by_docstring (namespace : Namespace)
    (route : Route) (download_to_file : bool) (i : nat)
    (params : list string) (overview : string) :
  (download_to_file = true → style_is route "download" = true) →
  arg_params (arg_data_type route) params →
  documentable_fields (arg_data_type route) = [] →
  process_doc (route_doc route) _docf = Ok overview →
  (truthy overview = false →
   _generate_route_helper namespace route download_to_file i =
   (declaration namespace route (style_is route "upload")
      (variant_suffix download_to_file) (variant_extra_args download_to_file)
      params i ::
    method_statements namespace route download_to_file (S i) ++
    [Emit i EmptyString], Ok ())) ∧
  (truthy overview = true →
   is_union_type (arg_data_type route) = false →
   is_void_type (error_data_type route) = false →
   is_user_defined_type (error_data_type route) = false →
   outcome (_generate_route_helper namespace route download_to_file i)
   = Raise (AttributeError "fields")).
Proof.
  intros Hstyle Hparams Hfields Hov. split.
  - intros Hempty.
    apply (helper_returns _ _ _ _ params overview []); try done.
    unfold _generate_docstring_for_func. rewrite bind_run.
    pose proof (arg_params_shape _ _ Hparams) as Hshape.
    destruct (arg_data_type route); try done; simpl in *; subst;
      by rewrite Hempty.
  - intros Htruthy Hunion Hverr Huerr.
    assert (_generate_route_method_decl namespace route (arg_data_type route)
              (style_is route "upload") (variant_suffix download_to_file)
              (variant_extra_args download_to_file) i
            = ([declaration namespace route (style_is route "upload")
                  (variant_suffix download_to_file)
                  (variant_extra_args download_to_file) params i], Ok ()))
      as Hdecl by (apply decl_run; by exists params).
    unfold _generate_route_helper.
    rewrite bind_run.
    destruct download_to_file; [rewrite Hstyle by done |];
      unfold variant_suffix, variant_extra_args in Hdecl; rewrite Hdecl;
      unfold output, outcome; cbn [fst snd];
      rewrite bind_run; unfold indent;
      rewrite bind_run; unfold lift at 1; rewrite Hov; cbn [fst snd];
      unfold output, outcome; cbn [fst snd];
      rewrite bind_run;
      unfold _generate_docstring_for_func, docstring_body, doc_error_section;
      destruct (arg_data_type route) as [|?|?|?|? ? ? fs ?|]; try done;
      simpl in Hfields; subst;
      destruct (error_data_type route); try done;
      destruct overview; try done;
      destruct (style_is route "upload"), (style_is route "download"),
        (is_void_type (result_data_type route)); try done.
Qed.

(** ** The parts of a docstring *)

Lemma output_bind_prefix {A B} (m : Gen A) (f : A → Gen B) (i : nat) :
  ∃ rest, output ((m ≫= f) i) = output (m i) ++ rest.
Proof.
  rewrite bind_run. destruct (m i) as [o [a|e]]; unfold output; cbn [fst].
  - by eexists.
  - exists []. by rewrite app_nil_r.
Qed.

(** X11. An overview is always set off by a blank line: a docstring that
    has one starts with the line of quotes, the overview as a wrapped
    paragraph and a blank line, whether parameters follow or not and
    whether the rest of the docstring is written or fails. *)
Theorem overview_then_blank (namespace : Namespace)
    (arg_data_type result_data_type error_data_type : DataType)
    (overview : string)
    (extra_request_args : option (list (string * option string * string)))
    (extra_return_arg footer : option string) (i : nat) :
  truthy overview = true →
  is_void_type arg_data_type || is_user_defined_type arg_data_type = true →
  ∃ rest,
    output (_generate_docstring_for_func namespace arg_data_type
              result_data_type error_data_type (Some overview)
              extra_request_args extra_return_arg footer i)
    = Emit i triple_quote :: EmitWrapped i overview EmptyString ::
      Emit i EmptyString :: rest.
Proof.
  intros Hov Hshape. unfold _generate_docstring_for_func.
  assert (∃ fields,
    (if is_void_type arg_data_type then mret []
     else lift (get_fields arg_data_type)) i = ([], Ok fields))
    as [fields Hfields] by (destruct arg_data_type; try done; by eexists).
  rewrite (output_bind _ _ _ fields) by by rewrite Hfields.
  rewrite Hfields. unfold output at 1. cbn [fst app truthy_opt].
  rewrite Hov, andb_false_r.
  rewrite (output_bind _ _ _ ()) by done.
  unfold output at 1. cbn [emit fst app].
  destruct (output_bind_prefix
    (docstring_body namespace arg_data_type result_data_type error_data_type
       fields (Some overview) extra_request_args extra_return_arg footer)
    (λ _, emit triple_quote) i) as [rest1 ->].
  unfold docstring_body. cbn [truthy_opt]. rewrite Hov. cbn [when default].
  rewrite (output_bind _ _ _ ()) by done.
  unfold output at 1. cbn [emit_wrapped_text fst app].
  destruct (truthy_list extra_request_args || nonempty fields); cbn [when].
  - lazymatch goal with
    | |- context [output ((?m ≫= ?f) i)] =>
        destruct (output_bind_prefix m f i) as [rest2 ->]
    end.
    lazymatch goal with
    | |- context [output ((?m ≫= ?f) i)] =>
        destruct (output_bind_prefix m f i) as [rest3 ->]
    end.
    unfold output. cbn [emit fst app]. by eexists.
  - rewrite (output_bind _ _ _ ()) by done.
    unfold output at 1. cbn [fst app andb negb when].
    lazymatch goal with
    | |- context [output ((?m ≫= ?f) i)] =>
        destruct (output_bind_prefix m f i) as [rest2 ->]
    end.
    unfold output. cbn [emit fst app]. by eexists.
Qed.



Lemma prefix_append (p s : string) : String.prefix p (p +:+ s) = true.
Proof.
  induction p as [|c p IH]; [by destruct s |].
  rewrite append_cons. cbn [String.prefix].
  by destruct (ascii_dec c c).
Qed.

Lemma no_rtype_filtered (i : nat) (l : list Emission) :
  Forall ((λ _ e, is_rtype e = false) i) l → List.filter is_rtype l = [].
Proof. induction 1 as [|e l He _ IH]; simpl; [done | by rewrite He]. Qed.

Ltac no_rtype_tac :=
  repeat first [ emits_only_step | apply emits_only_indent; [done |] ];
  try reflexivity.

Lemma doc_error_section_no_rtype namespace error_data_type :
  emits_only (λ _ e, is_rtype e = false)
    (doc_error_section namespace error_data_type).
Proof.
  intros i. unfold doc_error_section.
  destruct error_data_type as [|n|t|t|n ns d [|f fs] afs|n ns d [|f fs]];
    by repeat constructor.
Qed.

(** X13. A docstring documents the return type exactly once.  With an extra
    return value the note is a two-element list, the type of the result and
    the extra value; otherwise it is one line with the type of the result.
    The type of a Void result is written [None]. *)
Theorem return_type_documented_once (namespace : Namespace)
    (arg_data_type result_data_type error_data_type : DataType)
    (overview : option string)
    (extra_request_args : option (list (string * option string * string)))
    (extra_return_arg footer : option string) (i : nat) (out : list Emission) :
  _generate_docstring_for_func namespace arg_data_type result_data_type
    error_data_type overview extra_request_args extra_return_arg footer i
  = (out, Ok ()) →
  out ≠ [] →
  List.filter is_rtype out =
  [if truthy_opt extra_return_arg then
     MultilineList i
       [rtype_text namespace result_data_type;
        default EmptyString extra_return_arg]
       ":rtype: " EmptyString ("(", ")") true
   else Emit i (":rtype: " +:+ rtype_text namespace result_data_type)].
Proof.
  unfold _generate_docstring_for_func. intros H Hout.
  apply bind_ok_inv in H as (o0 & fields & o & Hf & H & ->).
  assert (o0 = []) as -> by (destruct arg_data_type; by inversion Hf).
  destruct (negb (nonempty fields) && negb (truthy_opt overview));
    [by injection H as <- |].
  apply bind_ok_inv in H as (oq & [] & o' & [= <-] & H & ->).
  apply bind_ok_inv in H as (body & [] & oq' & Hbody & [= <-] & ->).
  unfold docstring_body in Hbody.
  apply bind_ok_inv in Hbody as (o1 & [] & r1 & H1 & Hbody & ->).
  apply bind_ok_inv in Hbody as (o2 & [] & r2 & H2 & Hbody & ->).
  apply bind_ok_inv in Hbody as (o3 & [] & r3 & H3 & Hbody & ->).
  apply bind_ok_inv in Hbody as (o4 & [] & r4 & H4 & Hbody & ->).
  apply bind_ok_inv in Hbody as (o5 & [] & o6 & H5 & H6 & ->).
  assert (List.filter is_rtype o1 = []) as E1.
  { lazymatch type of H1 with
    | ?m i = _ =>
        assert (emits_only (λ _ e, is_rtype e = false) m) as HP by no_rtype_tac
    end.
    specialize (HP i). rewrite H1 in HP. by apply no_rtype_filtered in HP. }
  assert (List.filter is_rtype o2 = []) as E2.
  { lazymatch type of H2 with
    | ?m i = _ =>
        assert (emits_only (λ _ e, is_rtype e = false) m) as HP
          by (unfold doc_struct_field, doc_extra_request_arg; no_rtype_tac)
    end.
    specialize (HP i). rewrite H2 in HP. by apply no_rtype_filtered in HP. }
  assert (List.filter is_rtype o3 = []) as E3.
  { lazymatch type of H3 with
    | ?m i = _ =>
        assert (emits_only (λ _ e, is_rtype e = false) m) as HP by no_rtype_tac
    end.
    specialize (HP i). rewrite H3 in HP. by apply no_rtype_filtered in HP. }
  assert (List.filter is_rtype o5 = []) as E5.
  { pose proof (doc_error_section_no_rtype namespace error_data_type i) as HP.
    rewrite H5 in HP. by apply no_rtype_filtered in HP. }
  assert (List.filter is_rtype o6 = []) as E6.
  { lazymatch type of H6 with
    | ?m i = _ =>
        assert (emits_only (λ _ e, is_rtype e = false) m) as HP by no_rtype_tac
    end.
    specialize (HP i). rewrite H6 in HP. by apply no_rtype_filtered in HP. }
  cbn [app List.filter is_rtype]. 
  change (String.prefix ":rtype: " triple_quote) with false. cbn [app].
  rewrite !List.filter_app, E1, E2, E3, E5, E6. cbn [app List.filter].
  change (is_rtype (Emit i triple_quote)) with false. rewrite !app_nil_r.
  unfold rtype_text.
  destruct (truthy_opt extra_return_arg), (is_void_type result_data_type);
    injection H4 as <-; cbn [List.filter is_rtype];
    by rewrite ?prefix_append.
Qed.

(** ** Own and inherited fields *)

(** X14. The signature and the request literal of a struct argument are
    built from [all_fields] and never read [fields]; the docstring documents
    [fields] and never reads [all_fields].  A field that is only inherited
    is thus a parameter of the method that its docstring does not mention,
    and a struct with inherited fields only and no overview has no
    docstring at all. *)
Theorem own_and_inherited_fields (namespace : Namespace) (name ns : string)
    (doc : option string) (fields fields' all_fields all_fields' : list Field)
    (i : nat) :
  (∀ route request_binary_body method_name_suffix extra_args,
     _generate_route_method_decl namespace route
       (Struct name ns doc fields all_fields) request_binary_body
       method_name_suffix extra_args i
     = _generate_route_method_decl namespace route
         (Struct name ns doc fields' all_fields) request_binary_body
         method_name_suffix extra_args i) ∧
  materialize_request_arg (Struct name ns doc fields all_fields) i
  = materialize_request_arg (Struct name ns doc fields' all_fields) i ∧
  (∀ result_data_type error_data_type overview extra_request_args
     extra_return_arg footer,
     _generate_docstring_for_func namespace
       (Struct name ns doc fields all_fields) result_data_type error_data_type
       overview extra_request_args extra_return_arg footer i
     = _generate_docstring_for_func namespace
         (Struct name ns doc fields all_fields') result_data_type
         error_data_type overview extra_request_args extra_return_arg footer i) ∧
  (∀ result_data_type error_data_type overview extra_request_args
     extra_return_arg footer,
     truthy_opt overview = false →
     _generate_docstring_for_func namespace
       (Struct name ns doc [] all_fields) result_data_type error_data_type
       overview extra_request_args extra_return_arg footer i
     = ([], Ok ())).
Proof.
  split; [done |]. split; [done |]. split; [done |].
  intros res err overview extra ret footer Hov.
  unfold _generate_docstring_for_func. rewrite bind_run. simpl.
  by rewrite Hov.
Qed.

(** ** Documentation that is not rendered *)

(** X15. The documentation of a route is rendered after its prototype has
    been written: when [process_doc] fails on it, the method fails with
    that error and its output is the prototype alone, so a failed pass
    leaves a method without body behind. *)
Theorem unrendered_doc_leaves_prototype (namespace : Namespace) (route : Route)
    (download_to_file : bool) (i : nat) (params : list string) (e : Error) :
  (download_to_file = true → style_is route "download" = true) →
  arg_params (arg_data_type route) params →
  process_doc (route_doc route) _docf = Raise e →
  _generate_route_helper namespace route download_to_file i =
  ([declaration namespace route (style_is route "upload")
      (variant_suffix download_to_file) (variant_extra_args download_to_file)
      params i], Raise e).
Proof.
  intros Hstyle Hparams Hdoc.
  assert (_generate_route_method_decl namespace route (arg_data_type route)
            (style_is route "upload") (variant_suffix download_to_file)
            (variant_extra_args download_to_file) i
          = ([declaration namespace route (style_is route "upload")
                (variant_suffix download_to_file)
                (variant_extra_args download_to_file) params i], Ok ()))
    as Hdecl by (apply decl_run; by exists params).
  unfold _generate_route_helper. rewrite bind_run.
  destruct download_to_file; [rewrite Hstyle by done |];
    unfold variant_suffix, variant_extra_args in Hdecl; rewrite Hdecl;
    rewrite bind_run; unfold indent; rewrite bind_run; unfold lift;
    rewrite Hdoc; done.
Qed.

End Generator.

(** * The properties on the sample schema *)

Section OnSamples.

Import Samples.

Local Abbreviation sample_docf := (_docf fmt_plain).
Local Abbreviation sample_decl_field_arg :=
  (decl_field_arg fmt_plain fmt_obj class_name).
Local Abbreviation sample_decl :=
  (_generate_route_method_decl fmt_plain fmt_plain fmt_obj class_name).
Local Abbreviation sample_helper :=
  (_generate_route_helper fmt_plain fmt_plain fmt_plain fmt_obj fmt_type
     class_name process_doc).
Local Abbreviation sample_route :=
  (_generate_route fmt_plain fmt_plain fmt_plain fmt_obj fmt_type class_name
     process_doc).
Local Abbreviation sample_generate :=
  (generate fmt_plain fmt_plain fmt_plain fmt_obj fmt_type class_name
     process_doc args).

Lemma not_elem_of_sample (x : string) (l : list string) :
  bool_decide (x ∈ l) = false → x ∉ l.
Proof. intros H. by apply bool_decide_eq_false in H. Defined.

(** The translator on a link, on a plain value and on an unknown tag. *)
Lemma docf_closed_mapping_witness :
  sample_docf "link" "Dropbox home https://www.dropbox.com"
  = Ok "`Dropbox home <https://www.dropbox.com>`_" ∧
  sample_docf "val" "42" = Ok "42" ∧
  sample_docf "embed" "x" = Raise (RuntimeError "Unknown doc ref tag " "embed").
Proof.
  destruct (docf_closed_mapping fmt_plain)
    as (_ & _ & Hlink & _ & _ & _ & Hval & _ & Hunknown).
  split; [|split].
  - exact (Hlink "Dropbox home" "https://www.dropbox.com" eq_refl).
  - apply Hval. by apply not_elem_of_sample.
  - apply Hunknown. by apply not_elem_of_sample.
Defined.

(** The default [add] of a field of type [WriteMode], and the default
    [overwrite], which is rendered as another reference. *)
Lemma tagged_default_roundtrip_witness :
  sample_decl_field_arg mode_field = Ok "mode=files.WriteMode.add" ∧
  _generate_python_value fmt_plain fmt_obj class_name (Some "files")
    (TagRef WriteMode "add")
  ≠ _generate_python_value fmt_plain fmt_obj class_name (Some "files")
      (TagRef WriteMode "overwrite").
Proof.
  destruct (tagged_default_roundtrip fmt_plain fmt_obj class_name
              "WriteMode" "files" "add" "mode" None None
              [mkField "add" Void None None; mkField "overwrite" Void None None])
    as (_ & Hfield & Hback).
  split; [exact Hfield |]. intros Hsame.
  destruct (Hback "WriteMode" "files" "overwrite" None
              [mkField "add" Void None None; mkField "overwrite" Void None None]
              eq_refl eq_refl eq_refl eq_refl (λ _, eq_refl)
              (λ H : "add" = "overwrite", H) Hsame) as (_ & _ & Htag).
  discriminate Htag.
Defined.

(** The scenario of the specification: [get_metadata] in [files]. *)
Lemma struct_signature_parameters_witness :
  sample_decl files get_metadata GetMetadataArg false None None 1
  = ([MultilineList 1 ["self"; "path"; "include_media_info=None"]
        "def files_get_metadata" ":" ("(", ")") true], Ok ()).
Proof.
  destruct (struct_signature_parameters fmt_plain fmt_plain fmt_plain fmt_obj
              fmt_type class_name process_doc files get_metadata
              "GetMetadataArg" "files" None
              [path_field; include_media_info_field]
              [path_field; include_media_info_field] 1) as [Hdecl _].
  apply Hdecl. exists ["path"; "include_media_info=None"]. split; [|reflexivity].
  constructor; [by apply param_required |].
  constructor; [by apply param_nullable | constructor].
Defined.

(** [limit] is nullable and has the default [10]. *)
Lemma nullable_precedes_default_witness :
  is_nullable_type (field_data_type limit_field) = true ∧
  has_default limit_field = true ∧
  sample_decl_field_arg limit_field = Ok "limit=None".
Proof.
  split; [reflexivity |]. split; [reflexivity |].
  exact (proj1 (nullable_precedes_default fmt_plain fmt_plain fmt_obj class_name
                  limit_field (Literal "10") eq_refl eq_refl)).
Defined.

(** [echo] takes a string, and [ping] is not a download route. *)
Lemma unhandled_shapes_are_fatal_witness :
  sample_helper check echo false 0
  = ([], Raise (AssertionError "Unhandled request type: " (Some String_t))) ∧
  sample_helper check ping true 0
  = ([], Raise (AssertionError
                  "download_to_file can only be set for download-style routes."
                  None)).
Proof.
  destruct (unhandled_shapes_are_fatal fmt_plain fmt_plain fmt_plain fmt_obj
              fmt_type class_name process_doc check 0) as [Hshape Hfile].
  split.
  - destruct (Hshape String_t eq_refl eq_refl eq_refl) as (_ & _ & Hhelper).
    by apply (Hhelper echo false).
  - by apply Hfile.
Defined.

(** The request of [get_metadata]. *)
Lemma request_argument_materialized_witness :
  request_calls (output (sample_helper files get_metadata false 1))
  = [MultilineList 2 ["files.get_metadata"; "'files'"; "arg"; "None"]
       "r = self.request" EmptyString ("(", ")") false].
Proof.
  destruct (request_argument_materialized fmt_plain fmt_plain fmt_plain fmt_obj
              fmt_type class_name process_doc files get_metadata false 1 _ eq_refl)
    as (params & doc_out & rest & _ & _ & _ & Hreq & _).
  exact Hreq.
Defined.

(** The plain and the file variant of [download] differ in more than the
    prototype and the file-save call: one returns [r], the other [r[0]],
    and their docstrings differ. *)
Lemma download_variants_not_identical :
  style_is download "download" = true ∧
  without_prototype_and_save (output (sample_helper files download false 0))
  ≠ without_prototype_and_save (output (sample_helper files download true 0)).
Proof. split; [reflexivity |]. vm_compute. discriminate. Qed.

Lemma download_variants_witness :
  length (declarations (output (sample_route files download 0))) = 2.
Proof.
  destruct (download_variants fmt_plain fmt_plain fmt_plain fmt_obj fmt_type
              class_name process_doc files download 0 _ eq_refl)
    as (params & overview & doc_plain & _ & _ & _ & H).
  change (style_is download "download") with true in H.
  destruct H as (doc_file & _ & _ & Hlen & _). exact Hlen.
Defined.

(** The binary-body parameter of [alpha_upload] is not the last one. *)
Lemma upload_parameter_not_trailing :
  style_is alpha_upload "upload" = true ∧
  declarations (output (sample_route files alpha_upload 0))
  = [MultilineList 0 ["self"; "f"; "arg"] "def files_alpha_upload" ":"
       ("(", ")") true] ∧
  last ["self"; "f"; "arg"] ≠ Some "f".
Proof. split; [reflexivity |]. split; [reflexivity | discriminate]. Qed.

Lemma upload_binary_body_witness :
  request_calls (output (sample_route files upload 0))
  = [MultilineList 1 ["files.upload"; "'files'"; "arg"; "f"]
       "r = self.request" EmptyString ("(", ")") false].
Proof.
  destruct (upload_binary_body fmt_plain fmt_plain fmt_plain fmt_obj fmt_type
              class_name process_doc files upload 0 _ eq_refl) as [Hup _].
  destruct (Hup eq_refl) as (params & _ & _ & Hreq). exact Hreq.
Defined.

(** [alpha_upload] is deprecated by [upload]; the module of the sample
    schema imports [warnings] once. *)
Lemma deprecation_annotated_witness :
  import_lines (output (sample_generate api).2) = [Emit 0 "import warnings"] ∧
  ∃ before rest,
    output (sample_helper files alpha_upload false 0) =
    before ++
    MultilineList 1
      ["'alpha_upload is deprecated. Use upload.'"; "DeprecationWarning"]
      "warnings.warn" EmptyString ("(", ")") false :: rest.
Proof.
  destruct (deprecation_annotated fmt_plain fmt_plain fmt_plain fmt_obj fmt_type
              class_name process_doc args) as [Himport Hwarn].
  split; [exact (proj1 (Himport api)) |].
  destruct (Hwarn files alpha_upload (mkDeprecationInfo (Some "upload")) false 0
              _ eq_refl eq_refl) as (prototype & doc_out & rest & _ & _ & Hout).
  exists (prototype :: doc_out). eexists.
  change (output (sample_helper files alpha_upload false 0))
    with (sample_helper files alpha_upload false 0).1.
  rewrite <-app_comm_cons. exact Hout.
Defined.


(** * The further properties on the sample schema *)

Lemma imports_exactly_typed_namespaces_witness :
  data_types check = [] ∧
  _generate_imports (check :: [files]) 0 = _generate_imports [files] 0.
Proof.
  split; [reflexivity |].
  destruct (imports_exactly_typed_namespaces [files] 0)
    as (lines & _ & _ & Hskip & _).
  by apply Hskip.
Defined.

(** [mode] of [StrayArg] is a string with a tag as its default. *)
Lemma stray_tag_default_stops_the_method_witness :
  sample_decl files upload StrayArg true None None 1
  = ([], Raise (AttributeError "name")).
Proof.
  apply (stray_tag_default_stops_the_method fmt_plain fmt_plain fmt_plain
           fmt_obj fmt_type class_name process_doc files upload "StrayArg"
           "files" None [path_field; stray_mode_field]
           [path_field; stray_mode_field] 1).
  apply Exists_cons_tl, Exists_cons_hd. reflexivity.
Defined.

Lemma docf_link_needs_a_space_witness :
  contains_char " " "https://www.dropbox.com" = false ∧
  sample_docf "link" "https://www.dropbox.com"
  = Raise (ValueError "not enough values to unpack").
Proof.
  split; [reflexivity |].
  destruct (docf_link_needs_a_space fmt_plain) as (_ & Hnone & _).
  by apply Hnone.
Defined.

Lemma generate_returns_iff_routes_do_witness :
  outcome (sample_generate api).2 = Ok () ∧
  outcome (sample_route files download 1) = Ok ().
Proof.
  split; [reflexivity |].
  destruct (generate_returns_iff_routes_do fmt_plain fmt_plain fmt_plain fmt_obj
              fmt_type class_name process_doc args api) as (_ & _ & Hiff).
  apply (proj1 Hiff eq_refl files download).
  - apply elem_of_cons. by left.
  - do 3 (apply elem_of_cons; right). apply elem_of_cons. by left.
Defined.

Lemma one_method_per_variant_witness :
  length (declarations (output (_generate_route_methods fmt_plain fmt_plain
            fmt_plain fmt_obj fmt_type class_name process_doc [files; check] 1)))
  = 6.
Proof.
  destruct (one_method_per_variant fmt_plain fmt_plain fmt_plain fmt_obj
              fmt_type class_name process_doc [files; check] 1 _ eq_refl)
    as [Hdecl _].
  exact Hdecl.
Defined.

Lemma warning_implies_import_witness :
  import_lines (output (sample_generate api).2) = [Emit 0 "import warnings"] ∧
  Forall (λ e, is_warn_call e = false)
    (output (sample_helper files get_metadata false 1)).
Proof.
  destruct (warning_implies_import fmt_plain fmt_plain fmt_plain fmt_obj
              fmt_type class_name process_doc args) as [Himport Hnone].
  split; [|by apply Hnone].
  apply Himport. apply Exists_exists.
  exists (MultilineList 2
            ["'alpha_upload is deprecated. Use upload.'"; "DeprecationWarning"]
            "warnings.warn" EmptyString ("(", ")") false).
  split; [|reflexivity].
  apply list_elem_of_In. vm_compute.
  repeat first [ left; reflexivity | right ].
Defined.

Lemma method_layout_witness :
  ∃ items body,
    output (sample_helper files download true 0) =
      MultilineList 0 ("self" :: items) "def files_download_to_file" ":"
        ("(", ")") true ::
      body ++
      [Emit 1 "self._save_body_to_file(download_path, r[1])"] ++
      [Emit 1 "return r[0]"; Emit 0 EmptyString] ∧
    Forall (indented 1) body.
Proof.
  exact (method_layout fmt_plain fmt_plain fmt_plain fmt_obj fmt_type
           class_name process_doc files download true 0 _ eq_refl).
Defined.

Lemma error_type_read_only_by_docstring_witness :
  outcome (sample_helper check status false 0) = Raise (AttributeError "fields") ∧
  outcome (sample_helper check quiet_status false 0) = Ok ().
Proof.
  split.
  - destruct (error_type_read_only_by_docstring fmt_plain fmt_plain fmt_plain
                fmt_obj fmt_type class_name process_doc check status false 0
                [] "Reports the status." ltac:(done) eq_refl eq_refl eq_refl)
      as [_ Hraise].
    exact (Hraise eq_refl eq_refl eq_refl eq_refl).
  - destruct (error_type_read_only_by_docstring fmt_plain fmt_plain fmt_plain
                fmt_obj fmt_type class_name process_doc check quiet_status
                false 0 [] EmptyString ltac:(done) eq_refl eq_refl eq_refl)
      as [Hquiet _].
    exact (f_equal outcome (Hquiet eq_refl)).
Defined.

Lemma overview_then_blank_witness :
  ∃ rest,
    output (_generate_docstring_for_func fmt_plain fmt_type process_doc check
              Void Void Void (Some "Reports the status.") None None None 1)
    = Emit 1 triple_quote :: EmitWrapped 1 "Reports the status." EmptyString ::
      Emit 1 EmptyString :: rest.
Proof.
  exact (overview_then_blank fmt_plain fmt_type process_doc check Void Void
           Void "Reports the status." None None None 1 eq_refl eq_refl).
Defined.


Lemma return_type_documented_once_witness :
  List.filter is_rtype
    (output (_generate_docstring_for_func fmt_plain fmt_type process_doc files
               GetMetadataArg Metadata Void None None None None 1))
  = [Emit 1 ":rtype: :class:`dropbox.files.Metadata`"].
Proof.
  apply (return_type_documented_once fmt_plain fmt_type process_doc files
           GetMetadataArg Metadata Void None None None None 1 _ eq_refl).
  discriminate.
Defined.

Lemma own_and_inherited_fields_witness :
  _generate_docstring_for_func fmt_plain fmt_type process_doc files
    (Struct "Inherits" "files" None [] [path_field]) Void Void None None None
    None 1 = ([], Ok ()).
Proof.
  destruct (own_and_inherited_fields fmt_plain fmt_plain fmt_plain fmt_obj
              fmt_type class_name process_doc files "Inherits" "files" None
              [] [] [path_field] [path_field] 1) as (_ & _ & _ & Hskip).
  by apply Hskip.
Defined.

Lemma unrendered_doc_leaves_prototype_witness :
  _generate_route_helper fmt_plain fmt_plain fmt_plain fmt_obj fmt_type
    class_name (process_doc_reference "embed") check status false 0
  = ([MultilineList 0 ["self"] "def check_status" ":" ("(", ")") true],
     Raise (RuntimeError "Unknown doc ref tag " "embed")).
Proof.
  apply (unrendered_doc_leaves_prototype fmt_plain fmt_plain fmt_plain fmt_obj
           fmt_type class_name (process_doc_reference "embed") check status
           false 0 []); done.
Defined.

End OnSamples.
